(** * Researcher-Scraper: identity resolution and scoring

    A shallow embedding of the deduplication, scoring and location
    classification code of the xAI public researcher mapper
    ([XAIPublicResearcherMapper], [fetchOrgContributors]) and of the
    location filter of [ResearcherFocusedScraper], with the properties
    the specification states about them; then of the loops of the GitHub
    and press connectors, of the export paths and of the deduplication,
    statistics and helpers of [ResearcherFocusedScraper], with further
    properties read off the code.

    Modelling conventions.
    - A JS string is a [string] (a list of 8-bit characters); [toLowerCase]
      and [trim] act on the ASCII letters and the ASCII white space.
    - An optional field ([title?: string], a JSON field of an [any] value)
      is an [option string]; [undefined] and [null] are [None].  The JS
      operator [a || b] tests truthiness, so the empty string counts as
      absent there: see [truthy], [jsOr] and [orElse].
    - A JS number that holds a score is a rational number [Q]; the
      arithmetic of the source ([+], [/], [Math.min], [Math.max]) is exact
      on it.
    - [Map<string, PublicResearcher>] is an association list in insertion
      order, which is the order [seen.values()] iterates in. *)

From Stdlib Require Import Bool List Arith Lia ZArith QArith Qminmax Lqa Ascii String
  DecimalString.
Import ListNotations.

Open Scope string_scope.

(** ** JavaScript strings, truthiness and sets *)

Module JS.

Definition toLowerChar (c : ascii) : ascii :=
  let n := nat_of_ascii c in
  if (65 <=? n)%nat && (n <=? 90)%nat then ascii_of_nat (n + 32) else c.

(** [s.toLowerCase()] *)
Fixpoint toLowerCase (s : string) : string :=
  match s with
  | EmptyString => EmptyString
  | String c s' => String (toLowerChar c) (toLowerCase s')
  end.

Definition isWhiteSpace (c : ascii) : bool :=
  let n := nat_of_ascii c in
  ((9 <=? n)%nat && (n <=? 13)%nat) || (n =? 32)%nat.

Fixpoint trimStart (s : string) : string :=
  match s with
  | EmptyString => EmptyString
  | String c s' => if isWhiteSpace c then trimStart s' else s
  end.

Fixpoint trimEnd (s : string) : string :=
  match s with
  | EmptyString => EmptyString
  | String c s' =>
      match trimEnd s' with
      | EmptyString => if isWhiteSpace c then EmptyString else String c EmptyString
      | r => String c r
      end
  end.

(** [s.trim()] *)
Definition trim (s : string) : string := trimEnd (trimStart s).

(** [text.includes(k)]: [k] occurs in [text] as a contiguous substring. *)
Fixpoint includes (text k : string) : bool :=
  String.prefix k text
  || match text with
     | EmptyString => false
     | String _ rest => includes rest k
     end.

(** [s.substring(0, n)] *)
Fixpoint substring0 (n : nat) (s : string) : string :=
  match n, s with
  | S n', String c s' => String c (substring0 n' s')
  | _, _ => EmptyString
  end.

(** Truthiness of a string: only the empty string is falsy. *)
Definition truthyStr (s : string) : bool := negb (s =? "").

(** Truthiness of an optional string: [undefined], [null] and [""] are falsy. *)
Definition truthy (o : option string) : bool :=
  match o with
  | Some s => truthyStr s
  | None => false
  end.

(** [a || b] on two optional strings. *)
Definition jsOr (a b : option string) : option string :=
  if truthy a then a else b.

(** [a || d] where [d] is a string: the result is always a string. *)
Definition orElse (a : option string) (d : string) : string :=
  match a with
  | Some s => if truthyStr s then s else d
  | None => d
  end.

(** [a || ''] : the text of an optional field, absent and empty alike the
    empty string. *)
Definition linkValue (o : option string) : string := orElse o "".

(** [s || undefined] *)
Definition orUndefined (s : string) : option string :=
  if truthyStr s then Some s else None.

(** [set.add(x)] on a [Set<string>] kept in insertion order. *)
Definition setAdd (acc : list string) (x : string) : list string :=
  if existsb (String.eqb x) acc then acc else acc ++ [x].

(** [Array.from(new Set(xs))]: the distinct elements of [xs], each at the
    place of its first occurrence. *)
Definition arrayFromSet (xs : list string) : list string :=
  fold_left setAdd xs [].

(** [parts.join(sep)] *)
Fixpoint join (sep : string) (parts : list string) : string :=
  match parts with
  | [] => ""
  | [x] => x
  | x :: rest => x ++ sep ++ join sep rest
  end.

(** [s.slice(n)]: [s] without its first [n] characters. *)
Fixpoint drop (n : nat) (s : string) : string :=
  match n, s with
  | S n', String _ s' => drop n' s'
  | _, _ => s
  end.

(** [s.replace(pat, rep)] for a string pattern and a replacement without
    [$]: the first occurrence of [pat], if any, is replaced. *)
Fixpoint replaceFirst (pat rep s : string) : string :=
  if String.prefix pat s then rep ++ drop (String.length pat) s
  else match s with
       | EmptyString => EmptyString
       | String c rest => String c (replaceFirst pat rep rest)
       end.

(** [s.split(sep)] for a separator of one character. *)
Fixpoint splitOn (sep : ascii) (s : string) : list string :=
  match s with
  | EmptyString => [EmptyString]
  | String c rest =>
      if Ascii.eqb c sep then EmptyString :: splitOn sep rest
      else match splitOn sep rest with
           | w :: ws => String c w :: ws
           | [] => [String c EmptyString]
           end
  end.

(** [xs.slice(0, n)] is [firstn n xs]. A [Map<string, V>] in insertion
    order, for any type of values: [m.get(key)] and [m.set(key, v)]. *)
Fixpoint mapGet {V : Type} (key : string) (m : list (string * V)) : option V :=
  match m with
  | [] => None
  | (k, v) :: rest => if k =? key then Some v else mapGet key rest
  end.

Fixpoint mapSet {V : Type} (key : string) (v : V) (m : list (string * V))
  : list (string * V) :=
  match m with
  | [] => [(key, v)]
  | (k, w) :: rest =>
      if k =? key then (k, v) :: rest else (k, w) :: mapSet key v rest
  end.

(** [w] holds no space character. *)
Definition spaceFree (w : string) : Prop := ~ In " "%char (list_ascii_of_string w).

(** [s.indexOf(pat)]; [None] is [-1]. *)
Fixpoint indexOf (pat s : string) : option nat :=
  if String.prefix pat s then Some 0%nat
  else match s with
       | EmptyString => None
       | String _ rest => option_map S (indexOf pat rest)
       end.

(** [s.substring(a, b)] for [a <= b] *)
Definition substring (a b : nat) (s : string) : string :=
  String.substring a (b - a) s.

(** [s.replace(/\n/g, ' ')] *)
Fixpoint newlinesToSpaces (s : string) : string :=
  match s with
  | EmptyString => EmptyString
  | String c rest =>
      String (if Ascii.eqb c (ascii_of_nat 10) then " "%char else c) (newlinesToSpaces rest)
  end.

(** The decimal text of a count, as a template literal prints it. *)
Definition decimal (n : nat) : string := NilEmpty.string_of_uint (Nat.to_uint n).

End JS.

(** ** types.ts *)

Module Types.

Inductive Confidence : Type := low | medium | high.

Record PublicResearcher : Type := mkPublicResearcher {
  name : string;
  title : option string;
  company : option string;
  location : option string;
  locationConfidence : Confidence;
  githubUrl : option string;
  openAlexUrl : option string;
  homepageUrl : option string;
  xaiPageUrl : option string;
  otherSources : list string;
  isResearchLike : bool;
  researchScore : Q;
  notes : option string
}.

(** The record of a GitHub user as the REST API returns it ([user: any]). *)
Record GitHubUser : Type := mkGitHubUser {
  user_name : option string;
  user_location : option string;
  user_bio : option string;
  user_blog : option string;
  html_url : string
}.

End Types.
Import Types.

(** ** xaiPublicResearcherMapper: classifiers *)

Module Mapper.
Import JS.

Definition highConfidenceKeywords : list string :=
  [ "palo alto"; "menlo park"; "mountain view"; "sunnyvale";
    "san francisco"; "sf,"; "redwood city"; "cupertino" ].

Definition mediumConfidenceKeywords : list string :=
  [ "bay area"; "silicon valley"; "san jose"; "california"; "ca";
    "oakland"; "berkeley"; "fremont"; "santa clara" ].

(** [assessLocationConfidence(location)] *)
Definition assessLocationConfidence (location : string) : Confidence :=
  if negb (truthyStr location) then low
  else
    let loc := toLowerCase location in
    if existsb (fun k => includes loc k) highConfidenceKeywords then high
    else if existsb (fun k => includes loc k) mediumConfidenceKeywords then medium
    else low.

Definition keywords : list string :=
  [ "research"; "scientist"; "machine learning"; "ml"; "ai";
    "deep learning"; "nlp"; "vision"; "robotics" ].

(** [isResearchLike(text)] *)
Definition isResearchLike (text : string) : bool :=
  existsb (fun k => includes text k) keywords.

(** [computeResearchScore(text)] *)
Definition computeResearchScore (text : string) : Q :=
  let hits := List.length (filter (fun k => includes text k) keywords) in
  Qmin 1 (inject_Z (Z.of_nat hits) / inject_Z (Z.of_nat (List.length keywords)) + 0.2).

(** *** The candidate each source connector pushes *)

(** [scrapeXAISite]: one [.team-member] card; [nameText] and [titleText] are
    the [textContent] of the name and title elements, when they exist. *)
Definition scrapeXAISite (sourceUrl : string) (nameText titleText : option string)
  : option PublicResearcher :=
  let name := trim (orElse nameText "") in
  let title := trim (orElse titleText "") in
  if negb (truthyStr name) then None
  else Some {|
    Types.name := name;
    Types.title := orUndefined title;
    Types.company := Some "xAI";
    Types.location := None;
    Types.locationConfidence := low;
    Types.xaiPageUrl := Some sourceUrl;
    Types.otherSources := [sourceUrl];
    Types.githubUrl := None;
    Types.openAlexUrl := None;
    Types.homepageUrl := None;
    Types.isResearchLike := false;
    Types.researchScore := 0;
    Types.notes := Some "Found on xAI public site"
  |}.

(** [fetchGitHubContributors]: [commits] is the decimal text of
    [contrib.contributions]. *)
Definition fetchGitHubContributors (repo login commits : string) (user : GitHubUser)
  : PublicResearcher :=
  let name := trim (orElse (user_name user) login) in
  let location := trim (orElse (user_location user) "") in
  let bio := toLowerCase (orElse (user_bio user) "") in
  {|
    Types.name := name;
    Types.title := None;
    Types.company := Some "xAI";
    Types.location := orUndefined location;
    Types.locationConfidence := assessLocationConfidence location;
    Types.githubUrl := Some (html_url user);
    Types.openAlexUrl := None;
    Types.homepageUrl := jsOr (user_blog user) None;
    Types.xaiPageUrl := None;
    Types.otherSources := [html_url user];
    Types.isResearchLike := isResearchLike bio;
    Types.researchScore := computeResearchScore bio;
    Types.notes := Some ("Contributor to " ++ repo ++ " (" ++ commits ++ " commits)")
  |}.

(** The inline rule of [fetchGitHubOrgMembers] and [fetchOrgContributors]:
    [loc ? (loc.toLowerCase().includes('palo alto') ? 'high' : 'medium') : 'low'] *)
Definition paloAltoConfidence (loc : option string) : Confidence :=
  match loc with
  | Some l =>
      if truthyStr l then
        if includes (toLowerCase l) "palo alto" then high else medium
      else low
  | None => low
  end.

(** [fetchGitHubOrgMembers] *)
Definition fetchGitHubOrgMembers (login : string) (user : GitHubUser)
  : PublicResearcher :=
  let bio := match user_bio user with Some b => toLowerCase b | None => "" end in
  {|
    Types.name := orElse (user_name user) login;
    Types.title := None;
    Types.company := Some "xAI";
    Types.location := user_location user;
    Types.locationConfidence := paloAltoConfidence (user_location user);
    Types.githubUrl := Some (html_url user);
    Types.openAlexUrl := None;
    Types.homepageUrl := None;
    Types.xaiPageUrl := None;
    Types.isResearchLike := isResearchLike bio;
    Types.researchScore := computeResearchScore bio;
    Types.otherSources := [html_url user];
    Types.notes := Some "GitHub org member"
  |}.

(** [fetchOpenAlexResearchers]: one author that passed the affiliation
    filter. [works] is the decimal text of [worksCount] and [lg] the value of
    [Math.log10(worksCount + 1)]. *)
Definition fetchOpenAlexResearchers
  (display_name works : string) (lg : Q) (instName country : option string)
  (openAlexId : string) : PublicResearcher :=
  {|
    Types.name := display_name;
    Types.title := None;
    Types.company := Some (orElse instName "xAI");
    Types.location := jsOr country None;
    Types.locationConfidence := if truthy country then medium else low;
    Types.githubUrl := None;
    Types.openAlexUrl := Some openAlexId;
    Types.homepageUrl := None;
    Types.xaiPageUrl := None;
    Types.otherSources := [openAlexId];
    Types.isResearchLike := true;
    Types.researchScore := Qmin 1 (0.3 + lg / 2);
    Types.notes := Some ("OpenAlex author with xAI-like institution (works: " ++ works ++ ")")
  |}.

(** [fetchPressMentions]: one name mentioned at least twice; [count] is the
    decimal text of [data.count]. *)
Definition fetchPressMentions (name count : string) (sources : list string)
  (context0 : string) : PublicResearcher :=
  {|
    Types.name := name;
    Types.title := None;
    Types.company := Some "xAI";
    Types.location := None;
    Types.locationConfidence := low;
    Types.githubUrl := None;
    Types.openAlexUrl := None;
    Types.homepageUrl := None;
    Types.xaiPageUrl := None;
    Types.otherSources := firstn 3 sources;
    Types.isResearchLike := true;
    Types.researchScore := 0.5;
    Types.notes := Some ("Mentioned as xAI employee in " ++ count
                   ++ " news articles | Context: " ++ substring0 80 context0 ++ "...")
  |}.

(** [fetchHackerNewsDiscussions]; [karma] and [posts] are decimal texts. *)
Definition fetchHackerNewsDiscussions (username karma posts : string) : PublicResearcher :=
  {|
    Types.name := username;
    Types.title := None;
    Types.company := Some "xAI";
    Types.location := None;
    Types.locationConfidence := low;
    Types.githubUrl := None;
    Types.openAlexUrl := None;
    Types.homepageUrl := None;
    Types.xaiPageUrl := None;
    Types.otherSources := ["https://news.ycombinator.com/user?id=" ++ username];
    Types.isResearchLike := true;
    Types.researchScore := 0.4;
    Types.notes := Some ("Active on HN discussing xAI (" ++ karma ++ " karma, " ++ posts ++ " posts)")
  |}.

(** [fetchRedditDiscussions] *)
Definition fetchRedditDiscussions (author subreddit : string) : PublicResearcher :=
  {|
    Types.name := author;
    Types.title := None;
    Types.company := Some "xAI";
    Types.location := None;
    Types.locationConfidence := low;
    Types.githubUrl := None;
    Types.openAlexUrl := None;
    Types.homepageUrl := None;
    Types.xaiPageUrl := None;
    Types.otherSources := ["https://reddit.com/u/" ++ author];
    Types.isResearchLike := true;
    Types.researchScore := 0.3;
    Types.notes := Some ("Posted about xAI on r/" ++ subreddit)
  |}.

(** [scrapeTwitterMentions], the scraping branch *)
Definition scrapeTwitterMentions (author url : string) : PublicResearcher :=
  {|
    Types.name := author;
    Types.title := None;
    Types.company := Some "xAI";
    Types.location := None;
    Types.locationConfidence := low;
    Types.githubUrl := None;
    Types.openAlexUrl := None;
    Types.homepageUrl := None;
    Types.xaiPageUrl := None;
    Types.otherSources := [url];
    Types.isResearchLike := false;
    Types.researchScore := 0.2;
    Types.notes := Some "Tweeted about xAI"
  |}.

(** [fetchTwitterAPI] *)
Definition fetchTwitterAPI (user_name' : option string) (username : string)
  (user_location' : option string) : PublicResearcher :=
  {|
    Types.name := orElse user_name' username;
    Types.title := None;
    Types.company := Some "xAI";
    Types.location := jsOr user_location' None;
    Types.locationConfidence := if truthy user_location' then medium else low;
    Types.githubUrl := None;
    Types.openAlexUrl := None;
    Types.homepageUrl := None;
    Types.xaiPageUrl := None;
    Types.otherSources := ["https://twitter.com/" ++ username];
    Types.isResearchLike := false;
    Types.researchScore := 0.3;
    Types.notes := Some "Tweeted about xAI"
  |}.

(** *** deduplicatePeople *)

(** [Map<string, PublicResearcher>], in insertion order. *)
Definition SeenMap : Type := list (string * PublicResearcher).

(** [seen.get(key)] *)
Fixpoint seen_get (key : string) (seen : SeenMap) : option PublicResearcher :=
  match seen with
  | [] => None
  | (k, v) :: rest => if k =? key then Some v else seen_get key rest
  end.

(** [seen.set(key, v)]: an existing key keeps its place, a new one goes last. *)
Fixpoint seen_set (key : string) (v : PublicResearcher) (seen : SeenMap) : SeenMap :=
  match seen with
  | [] => [(key, v)]
  | (k, w) :: rest =>
      if k =? key then (k, v) :: rest else (k, w) :: seen_set key v rest
  end.

(** [Array.from(seen.values())] *)
Definition seen_values (seen : SeenMap) : list PublicResearcher := map snd seen.

(** [person.githubUrl || person.openAlexUrl || person.name.toLowerCase().trim()] *)
Definition mergeKey (person : PublicResearcher) : string :=
  orElse (githubUrl person)
    (orElse (openAlexUrl person) (trim (toLowerCase (name person)))).

Definition confRank (c : Confidence) : Z :=
  match c with
  | low => 0
  | medium => 1
  | high => 2
  end.

(** [xs.filter(Boolean)] on optional strings *)
Fixpoint filterBoolean (xs : list (option string)) : list string :=
  match xs with
  | [] => []
  | Some s :: rest => if truthyStr s then s :: filterBoolean rest else filterBoolean rest
  | None :: rest => filterBoolean rest
  end.

(** The [else] branch of the loop body: [merged] built from [existing] and
    the incoming [person]. *)
Definition mergePerson (existing person : PublicResearcher) : PublicResearcher :=
  {|
    Types.name := name existing;
    Types.title := jsOr (title existing) (title person);
    Types.company := jsOr (company existing) (company person);
    Types.location := jsOr (location existing) (location person);
    Types.locationConfidence :=
      if (confRank (locationConfidence person) >? confRank (locationConfidence existing))%Z
      then locationConfidence person
      else locationConfidence existing;
    Types.githubUrl := jsOr (githubUrl existing) (githubUrl person);
    Types.openAlexUrl := jsOr (openAlexUrl existing) (openAlexUrl person);
    Types.homepageUrl := jsOr (homepageUrl existing) (homepageUrl person);
    Types.xaiPageUrl := jsOr (xaiPageUrl existing) (xaiPageUrl person);
    Types.otherSources := arrayFromSet (otherSources existing ++ otherSources person);
    Types.researchScore :=
      Qmin 1 (Qmax (researchScore existing) (researchScore person) + 0.1);
    Types.isResearchLike := Types.isResearchLike existing || Types.isResearchLike person;
    Types.notes := Some (join " | " (filterBoolean [notes existing; notes person]))
  |}.

(** One iteration of [for (const person of this.people)]. *)
Definition dedupStep (seen : SeenMap) (person : PublicResearcher) : SeenMap :=
  let key := mergeKey person in
  match seen_get key seen with
  | None => seen_set key person seen
  | Some existing => seen_set key (mergePerson existing person) seen
  end.

(** The map [seen] when the loop over [people] ends. *)
Definition dedupSeen (people : list PublicResearcher) : SeenMap :=
  fold_left dedupStep people [].

(** [deduplicatePeople()]: the new value of [this.people]. *)
Definition deduplicatePeople (people : list PublicResearcher) : list PublicResearcher :=
  seen_values (dedupSeen people).

(** The candidates of [people] that the loop files under [key], in order. *)
Definition candidatesOf (key : string) (people : list PublicResearcher)
  : list PublicResearcher :=
  filter (fun person => mergeKey person =? key) people.

(** What one candidate does to the entry of its own key: it is stored when
    the key is new and merged into the entry otherwise. *)
Definition absorb (entry : option PublicResearcher) (person : PublicResearcher)
  : option PublicResearcher :=
  Some match entry with
       | None => person
       | Some existing => mergePerson existing person
       end.

(** [person] has a recorded, non-empty location. *)
Definition hasLocation (person : PublicResearcher) : bool := truthy (location person).

(** Every entry of the map sits under its own merge key. *)
Definition keyed (seen : SeenMap) : Prop :=
  Forall (fun kv => mergeKey (snd kv) = fst kv) seen.

(** *** exportResults: the Bay Area filter *)

Definition bayAreaKeywords : list string :=
  [ "palo alto"; "bay area"; "san francisco"; "mountain view"; "menlo park";
    "sunnyvale"; "redwood city"; "cupertino"; "silicon valley"; "san jose";
    "oakland"; "berkeley"; "fremont"; "santa clara"; "sf,"; "california"; "ca" ].

Definition isBayArea (p : PublicResearcher) : bool :=
  let loc := toLowerCase (orElse (location p) "") in
  existsb (fun k => includes loc k) bayAreaKeywords.

(** [bayAreaPeople] of [exportResults], computed after [deduplicatePeople()]. *)
Definition bayAreaPeople (people : list PublicResearcher) : list PublicResearcher :=
  filter isBayArea (deduplicatePeople people).

(** [txtFile] of [exportResults]: [filename.replace('.csv', '_summary.txt')].
    The CSV is written to [filename] first and the summary to [txtFile]
    after it. *)
Definition summaryFile (filename : string) : string :=
  replaceFirst ".csv" "_summary.txt" filename.

(** *** fetchGitHubContributors: the loops *)

(** One entry of a repository's contributor list, with the answer to the
    request for that user ([None] when [!userRes.ok]); [contributions] is
    the decimal text of the count. *)
Record Contributor : Type := mkContributor {
  login : string;
  contributions : string;
  userRes : option GitHubUser
}.


(** The state the loops update: [this.people] and [totalProcessed]. *)
Definition contributorStep (repo : string)
  (st : list PublicResearcher * nat) (contrib : Contributor)
  : list PublicResearcher * nat :=
  match userRes contrib with
  | None => st
  | Some user =>
      ((fst st ++ [fetchGitHubContributors repo (login contrib) (contributions contrib) user])%list,
       S (snd st))
  end.

(** The body of [for (const repo of repos)]; [res] is the contributor list
    the API returned for [repo], [None] when [!res.ok]. *)
Definition repoStep (st : list PublicResearcher * nat)
  (repoRes : string * option (list Contributor)) : list PublicResearcher * nat :=
  match snd repoRes with
  | None => st
  | Some contributors => fold_left (contributorStep (fst repoRes)) (firstn 50 contributors) st
  end.


(** [fetchGitHubSources]: the candidates of [fetchOrgContributors] are
    appended; when it throws, the error is logged and nothing is added. *)
Definition fetchGitHubSources (people : list PublicResearcher)
  (ghPeople : option (list PublicResearcher)) : list PublicResearcher :=
  match ghPeople with
  | Some gh => (people ++ gh)%list
  | None => people
  end.

(** *** fetchPressMentions: names mentioned with employee context *)

Definition isUpper (c : ascii) : bool :=
  let n := nat_of_ascii c in (65 <=? n)%nat && (n <=? 90)%nat.

Definition isLower (c : ascii) : bool :=
  let n := nat_of_ascii c in (97 <=? n)%nat && (n <=? 122)%nat.

(** The longest run of lower-case letters at the start of [s], and the rest. *)
Fixpoint lowerRun (s : string) : string * string :=
  match s with
  | EmptyString => (EmptyString, EmptyString)
  | String c rest =>
      if isLower c
      then let (w, r) := lowerRun rest in (String c w, r)
      else (EmptyString, s)
  end.

(** [[A-Z][a-z]+] at the start of [s]: the word and the rest. The run of
    lower-case letters is the longest one, as what follows the word in
    [namePattern] is never a lower-case letter. *)
Definition capitalized (s : string) : option (string * string) :=
  match s with
  | EmptyString => None
  | String c rest =>
      if isUpper c
      then match lowerRun rest with
           | (EmptyString, _) => None
           | (w, r) => Some (String c w, r)
           end
      else None
  end.

(** [/([A-Z][a-z]+ [A-Z][a-z]+(?:\s[A-Z][a-z]+)?)/] at the start of [s]:
    the text it matches. *)
Definition matchName (s : string) : option string :=
  match capitalized s with
  | Some (w1, String sp r1) =>
      if Ascii.eqb sp " " then
        match capitalized r1 with
        | Some (w2, r2) =>
            Some (w1 ++ " " ++ w2 ++
                  match r2 with
                  | String ws r3 =>
                      if isWhiteSpace ws
                      then match capitalized r3 with
                           | Some (w3, _) => String ws w3
                           | None => EmptyString
                           end
                      else EmptyString
                  | EmptyString => EmptyString
                  end)
        | None => None
        end
      else None
  | _ => None
  end.

(** [text.match(namePattern) || []] with the flag [g]: the matches from left
    to right, each search starting where the last match ended; [skip] is the
    number of characters still inside the last match. *)
Fixpoint matchAll (skip : nat) (s : string) : list string :=
  match s with
  | EmptyString => []
  | String _ rest =>
      match skip with
      | S k => matchAll k rest
      | O =>
          match matchName s with
          | Some m => m :: matchAll (String.length m - 1) rest
          | None => matchAll 0 rest
          end
      end
  end.

Definition employeeContexts : list string :=
  [ "xai researcher"; "xai engineer"; "xai scientist"; "xai employee";
    "works at xai"; "working at xai"; "joined xai"; "at xai";
    "xai team member"; "xai staff"; "hired by xai" ].

Definition excludePatterns : list string :=
  [ "elon musk"; "sam altman"; "mark zuckerberg"; "sundar pichai";
    "satya nadella"; "jeff bezos"; "bill gates"; "larry page";
    "openai"; "google"; "microsoft"; "meta"; "anthropic" ].

Record Article : Type := mkArticle {
  article_title : string;
  article_description : option string;
  article_content : option string;
  article_url : string
}.

(** An entry of [mentionedNames]; [mentions] is its field [count]. *)
Record Mention : Type := mkMention {
  mentions : nat;
  sources : list string;
  contexts : list string
}.

(** [`${article.title} ${article.description || ''} ${article.content || ''}`] *)
Definition articleText (article : Article) : string :=
  article_title article ++ " " ++ orElse (article_description article) ""
  ++ " " ++ orElse (article_content article) "".

(** The body of [for (const name of matches)]. *)
Definition nameStep (text url : string) (mentionedNames : list (string * Mention))
  (name : string) : list (string * Mention) :=
  let textLower := toLowerCase text in
  let nameLower := toLowerCase name in
  if (String.length name <? 6)%nat || (3 <? List.length (splitOn " " name))%nat
  then mentionedNames
  else if existsb (fun pattern => includes nameLower pattern) excludePatterns
  then mentionedNames
  else
    match indexOf nameLower textLower with
    | None => mentionedNames
    | Some nameIndex =>
        let contextWindow :=
          substring (nameIndex - 100)
            (Nat.min (String.length textLower) (nameIndex + 100)) textLower in
        if existsb (fun ctx => includes contextWindow ctx) employeeContexts
        then
          let entry := match mapGet name mentionedNames with
                       | Some e => e
                       | None => mkMention 0 [] []
                       end in
          let contextSnippet :=
            substring (nameIndex - 50)
              (Nat.min (String.length text) (nameIndex + String.length name + 50)) text in
          mapSet name
            (mkMention (S (mentions entry))
               (setAdd (sources entry) url)
               (contexts entry ++ [trim (newlinesToSpaces contextSnippet)]))
            mentionedNames
        else mentionedNames
    end.

(** The body of [for (const article of allArticles)]. *)
Definition articleStep (mentionedNames : list (string * Mention)) (article : Article)
  : list (string * Mention) :=
  let text := articleText article in
  fold_left (nameStep text (article_url article)) (matchAll 0 text) mentionedNames.

(** [mentionedNames] after all articles. *)
Definition mentionedNamesOf (allArticles : list Article) : list (string * Mention) :=
  fold_left articleStep allArticles [].

(** The candidates pushed for the names mentioned at least twice. *)
Definition pressPeople (allArticles : list Article) : list PublicResearcher :=
  flat_map
    (fun entry =>
       if (2 <=? mentions (snd entry))%nat
       then [ fetchPressMentions (fst entry) (decimal (mentions (snd entry)))
                (sources (snd entry)) (hd "" (contexts (snd entry))) ]
       else [])
    (mentionedNamesOf allArticles).

(** What every entry of [mentionedNames] satisfies, for a property [ofArticle]
    of the URLs seen so far. *)
Definition mentionOk (ofArticle : string -> Prop) (entry : string * Mention) : Prop :=
  (1 <= mentions (snd entry))%nat
  /\ List.length (contexts (snd entry)) = mentions (snd entry)
  /\ NoDup (sources (snd entry))
  /\ (1 <= List.length (sources (snd entry)) <= mentions (snd entry))%nat
  /\ (forall u, In u (sources (snd entry)) -> ofArticle u)
  /\ (6 <= String.length (fst entry))%nat
  /\ existsb (fun pattern => includes (toLowerCase (fst entry)) pattern) excludePatterns
     = false.

End Mapper.

(** ** githubReposScraper.ts *)

Module GithubReposScraper.
Import JS.

(** The alternatives of [/research|scientist|ml|ai|deep learning|nlp|vision|robotics/]. *)
Definition researchPattern : list string :=
  [ "research"; "scientist"; "ml"; "ai"; "deep learning"; "nlp"; "vision"; "robotics" ].

(** [regex.test(bio)] for an alternation of literals: some alternative occurs. *)
Definition testPattern (bio : string) : bool :=
  existsb (fun k => includes bio k) researchPattern.

(** [fetchOrgContributors]: the candidate built for one contributor. *)
Definition fetchOrgContributors (repoName login : string) (user : GitHubUser)
  : PublicResearcher :=
  let bio := toLowerCase (orElse (user_bio user) "") in
  let name := trim (orElse (user_name user) login) in
  let location := trim (orElse (user_location user) "") in
  let isResearchLike := testPattern bio in
  let researchScore := if isResearchLike then 0.6 else 0.3 in
  {|
    Types.name := name;
    Types.title := None;
    Types.company := Some "xAI";
    Types.location := orUndefined location;
    Types.locationConfidence := Mapper.paloAltoConfidence (Some location);
    Types.githubUrl := Some (html_url user);
    Types.openAlexUrl := None;
    Types.homepageUrl := jsOr (user_blog user) None;
    Types.xaiPageUrl := None;
    Types.otherSources := [html_url user];
    Types.isResearchLike := isResearchLike;
    Types.researchScore := researchScore;
    Types.notes := Some ("GitHub contributor to xai-org/" ++ repoName)
  |}.

(** A repository of the organisation with the answer to the request for its
    contributors: their logins, or [None] when [!contribRes.ok]. *)
Record Repo : Type := mkRepo {
  repo_name : string;
  contribRes : option (list string)
}.

(** The state of the loops: the set [seenUsers], the requests made for user
    records (in order), and [people]. *)
Record LoopState : Type := mkLoopState {
  seenUsers : list string;
  userRequests : list string;
  people : list PublicResearcher
}.

(** The body of [for (const c of contributors)]; [userOf login] is the
    answer to the request for the user [login], [None] when [!userRes.ok]. *)
Definition contributorStep (userOf : string -> option GitHubUser) (repoName : string)
  (st : LoopState) (login : string) : LoopState :=
  if existsb (String.eqb login) (seenUsers st) then st
  else
    let seen' := setAdd (seenUsers st) login in
    let requests' := (userRequests st ++ [login])%list in
    match userOf login with
    | None => mkLoopState seen' requests' (people st)
    | Some user =>
        mkLoopState seen' requests'
          (people st ++ [fetchOrgContributors repoName login user])%list
    end.

Definition repoStep (userOf : string -> option GitHubUser)
  (st : LoopState) (repo : Repo) : LoopState :=
  match contribRes repo with
  | None => st
  | Some contributors => fold_left (contributorStep userOf (repo_name repo)) contributors st
  end.





End GithubReposScraper.

(** ** scraper-researchers.ts *)

Module ResearcherFocusedScraper.
Import JS.

Record Researcher : Type := mkResearcher {
  name : string;
  title : option string;
  location : option string;
  githubUsername : option string;
  twitterUsername : option string;
  email : option string;
  source : string;
  sourceUrl : string;
  confidence : Confidence;
  researchArea : option string
}.

(** The predicate of [filterByPaloAlto]:
    [r.location?.toLowerCase().includes('palo alto') ||
     r.location?.toLowerCase().includes('bay area') || !r.location] *)
Definition keepsByPaloAlto (r : Researcher) : bool :=
  match location r with
  | None => true
  | Some l =>
      includes (toLowerCase l) "palo alto"
      || includes (toLowerCase l) "bay area"
      || negb (truthyStr l)
  end.

(** [filterByPaloAlto()] *)
Definition filterByPaloAlto (researchers : list Researcher) : list Researcher :=
  filter keepsByPaloAlto researchers.

(** The key of [deduplicateResearchers]: [researcher.name.toLowerCase().trim()] *)
Definition nameKey (researcher : Researcher) : string :=
  trim (toLowerCase (name researcher)).

Definition isHigh (c : Confidence) : bool :=
  match c with
  | high => true
  | _ => false
  end.

(** One iteration of the loop of [deduplicateResearchers]. *)
Definition dedupStep (seen : list (string * Researcher)) (researcher : Researcher)
  : list (string * Researcher) :=
  let key := nameKey researcher in
  match mapGet key seen with
  | None => mapSet key researcher seen
  | Some existing =>
      if isHigh (confidence researcher) && negb (isHigh (confidence existing))
      then mapSet key researcher seen
      else seen
  end.

(** [deduplicateResearchers()]: the new value of [this.researchers]. *)
Definition deduplicateResearchers (researchers : list Researcher) : list Researcher :=
  map snd (fold_left dedupStep researchers []).

(** The researchers of [researchers] with the name key [key], in order. *)
Definition namesakes (key : string) (researchers : list Researcher) : list Researcher :=
  filter (fun r => nameKey r =? key) researchers.

(** What one researcher does to the entry of its own name key: it is stored
    when the key is new, it replaces an entry that is not of high confidence
    when it is itself of high confidence, and it is dropped otherwise. *)
Definition prefer (entry : option Researcher) (researcher : Researcher)
  : option Researcher :=
  Some match entry with
       | None => researcher
       | Some existing =>
           if isHigh (confidence researcher) && negb (isHigh (confidence existing))
           then researcher
           else existing
       end.

Definition highConfidence (r : Researcher) : bool := isHigh (confidence r).

(** [paloAltoResearchers] of [exportResults]. *)
Definition paloAltoResearchers (researchers : list Researcher) : list Researcher :=
  filterByPaloAlto (deduplicateResearchers researchers).

(** [txtFilename] of [exportResults] *)
Definition dinnerListFile (filename : string) : string :=
  replaceFirst ".csv" "_dinner_list.txt" filename.

(** [getStats()] *)
Record Stats : Type := mkStats {
  total : nat;
  paloAlto : nat;
  withGitHub : nat;
  byHigh : nat;
  byMedium : nat;
  byLow : nat
}.

Definition confidence_eqb (a b : Confidence) : bool :=
  match a, b with
  | low, low | medium, medium | high, high => true
  | _, _ => false
  end.

Definition getStats (researchers : list Researcher) : Stats :=
  {| total := List.length researchers;
     paloAlto := List.length (filterByPaloAlto researchers);
     withGitHub := List.length (filter (fun r => truthy (githubUsername r)) researchers);
     byHigh := List.length (filter (fun r => confidence_eqb (confidence r) high) researchers);
     byMedium := List.length (filter (fun r => confidence_eqb (confidence r) medium) researchers);
     byLow := List.length (filter (fun r => confidence_eqb (confidence r) low) researchers) |}.

(** A user cell of the Twitter search results. *)
Record TwitterProfile : Type := mkTwitterProfile {
  profile_username : string;
  profile_name : string;
  profile_bio : string
}.

(** [r.twitterUsername === username] *)
Definition hasTwitterUsername (username : string) (r : Researcher) : bool :=
  match twitterUsername r with
  | Some u => u =? username
  | None => false
  end.

(** The body of [profiles.forEach] in [searchTwitterForXAIResearchers]. *)
Definition pushProfile (researchers : list Researcher) (profile : TwitterProfile)
  : list Researcher :=
  if existsb (hasTwitterUsername (profile_username profile)) researchers
  then researchers
  else
    (researchers ++
    [ {| name := profile_name profile;
         title := None;
         location := None;
         githubUsername := None;
         twitterUsername := Some (profile_username profile);
         email := None;
         source := "Twitter/X";
         sourceUrl := "https://twitter.com/" ++ profile_username profile;
         confidence := medium;
         researchArea := Some (profile_bio profile) |} ])%list.

Definition pushProfiles (researchers : list Researcher) (profiles : list TwitterProfile)
  : list Researcher :=
  fold_left pushProfile profiles researchers.

(** The Twitter user names the researchers carry. *)
Fixpoint twitterUsernames (researchers : list Researcher) : list string :=
  match researchers with
  | [] => []
  | r :: rest =>
      match twitterUsername r with
      | Some u => u :: twitterUsernames rest
      | None => twitterUsernames rest
      end
  end.

(** [guessEmail(name)] *)
Definition guessEmail (name : string) : string :=
  match splitOn " " (toLowerCase name) with
  | p0 :: p1 :: _ => p0 ++ "@x.ai or " ++ p0 ++ "." ++ p1 ++ "@x.ai"
  | _ => "firstname@x.ai"
  end.

End ResearcherFocusedScraper.

(** ** The run: what reaches [this.people] *)

Module Pipeline.

(** [pushed p]: some source connector pushes the candidate [p]. For an
    OpenAlex author, [lg] is [Math.log10(worksCount + 1)] for a count of
    works, which is never negative. *)
Inductive pushed : PublicResearcher -> Prop :=
| pushed_site url nameText titleText p :
    Mapper.scrapeXAISite url nameText titleText = Some p -> pushed p
| pushed_orgMember login user :
    pushed (Mapper.fetchGitHubOrgMembers login user)
| pushed_contributor repo login commits user :
    pushed (Mapper.fetchGitHubContributors repo login commits user)
| pushed_orgContributor repoName login user :
    pushed (GithubReposScraper.fetchOrgContributors repoName login user)
| pushed_openAlex display_name works lg instName country openAlexId :
    0 <= lg ->
    pushed (Mapper.fetchOpenAlexResearchers display_name works lg instName country openAlexId)
| pushed_press name count sources context0 :
    pushed (Mapper.fetchPressMentions name count sources context0)
| pushed_hackerNews username karma posts :
    pushed (Mapper.fetchHackerNewsDiscussions username karma posts)
| pushed_reddit author subreddit :
    pushed (Mapper.fetchRedditDiscussions author subreddit)
| pushed_twitterScrape author url :
    pushed (Mapper.scrapeTwitterMentions author url)
| pushed_twitterAPI user_name username user_location :
    pushed (Mapper.fetchTwitterAPI user_name username user_location).

(** The values [this.people] takes: empty at first, extended by the
    connectors, replaced by [deduplicatePeople()] at each export. *)
Inductive reachable : list PublicResearcher -> Prop :=
| reachable_init : reachable []
| reachable_push people p :
    reachable people -> pushed p -> reachable (people ++ [p])
| reachable_dedup people :
    reachable people -> reachable (Mapper.deduplicatePeople people).

(** A score within the unit interval. *)
Definition scoreInRange (p : PublicResearcher) : Prop :=
  0 <= researchScore p /\ researchScore p <= 1.

(** A research-like record has a score of 0.3 or more. *)
Definition flaggedScore (p : PublicResearcher) : Prop :=
  Types.isResearchLike p = true -> 0.3 <= researchScore p.

End Pipeline.

(** ** The specification's wording, for comparison with the code *)

Module Spec.
Import JS.

(** "Merge key computed as: first non-empty identity-link value of the
    candidate (in priority order: profile link, academic link, homepage
    link), else normalized display name." *)
Definition mergeKey (c : PublicResearcher) : string :=
  orElse (githubUrl c)
    (orElse (openAlexUrl c)
       (orElse (homepageUrl c) (trim (toLowerCase (name c))))).

(** The identity links a candidate carries: profile, academic, homepage. *)
Definition identityLinks (c : PublicResearcher) : list string :=
  Mapper.filterBoolean [githubUrl c; openAlexUrl c; homepageUrl c].

(** "they share an identity-link value (exact match)" *)
Definition shareLink (a b : PublicResearcher) : bool :=
  existsb (fun x => existsb (String.eqb x) (identityLinks b)) (identityLinks a).

(** "... OR their normalized display names are exactly equal
    (case-insensitive, trimmed) when no identity link is present for either" *)
Definition sameIdentity (a b : PublicResearcher) : bool :=
  shareLink a b
  || (match identityLinks a, identityLinks b with
      | [], [] => trim (toLowerCase (name a)) =? trim (toLowerCase (name b))
      | _, _ => false
      end).

(** "bestLocation/bestLocationConfidence updated only if the candidate's
    confidence tier is strictly higher than the stored one": the pair moves
    together. *)
Definition bestLocation (existing person : PublicResearcher)
  : option string * Confidence :=
  if (Mapper.confRank (locationConfidence person)
      >? Mapper.confRank (locationConfidence existing))%Z
  then (location person, locationConfidence person)
  else (location existing, locationConfidence existing).

(** "keep identities whose bestLocationConfidence >= tierThreshold, OR whose
    location is entirely unknown" *)
Definition filterByLocation (identities : list PublicResearcher)
  (tierThreshold : Confidence) : list PublicResearcher :=
  filter (fun p =>
            (Mapper.confRank tierThreshold <=? Mapper.confRank (locationConfidence p))%Z
            || negb (truthy (location p)))
         identities.

End Spec.

(** ** Concrete candidates *)

Module Examples.

Definition aliceUser : GitHubUser :=
  {| user_name := Some "Alice Ames";
     user_location := Some "Palo Alto, CA";
     user_bio := Some "Research scientist working on ML";
     user_blog := Some "https://x.ai";
     html_url := "https://github.com/alice" |}.

Definition bobUser : GitHubUser :=
  {| user_name := Some "Bob Berg";
     user_location := Some "Berlin";
     user_bio := None;
     user_blog := Some "https://x.ai";
     html_url := "https://github.com/bob" |}.

(** Two contributors with distinct GitHub profiles and the same blog URL. *)
Definition alice : PublicResearcher :=
  Mapper.fetchGitHubContributors "xai-org/grok-1" "alice" "12" aliceUser.

Definition bob : PublicResearcher :=
  Mapper.fetchGitHubContributors "xai-org/grok-1" "bob" "3" bobUser.

(** [alice] again, from another repository, after she changed her blog URL. *)
Definition aliceMoved : PublicResearcher :=
  Mapper.fetchGitHubContributors "xai-org/grok-prompts" "alice" "2"
    {| user_name := Some "Alice Ames";
       user_location := Some "Palo Alto, CA";
       user_bio := Some "Research scientist working on ML";
       user_blog := Some "https://alice.example";
       html_url := "https://github.com/alice" |}.

(** [bobUser] as the org-members connector reports him. *)
Definition bobMember : PublicResearcher :=
  Mapper.fetchGitHubOrgMembers "bob" bobUser.

(** A candidate without links, named [n], located at [loc] with tier [c]. *)
Definition named (n : string) (loc : option string) (c : Confidence)
  (src : list string) (s : Q) : PublicResearcher :=
  {| Types.name := n;
     Types.title := None;
     Types.company := Some "xAI";
     Types.location := loc;
     Types.locationConfidence := c;
     Types.githubUrl := None;
     Types.openAlexUrl := None;
     Types.homepageUrl := None;
     Types.xaiPageUrl := None;
     Types.otherSources := src;
     Types.isResearchLike := false;
     Types.researchScore := s;
     Types.notes := None |}.

(** A candidate whose only identity link is a homepage. *)
Definition janeHome : PublicResearcher :=
  {| Types.name := " Jane Doe";
     Types.title := None;
     Types.company := None;
     Types.location := None;
     Types.locationConfidence := low;
     Types.githubUrl := None;
     Types.openAlexUrl := None;
     Types.homepageUrl := Some "https://jane.example";
     Types.xaiPageUrl := None;
     Types.otherSources := ["https://jane.example"];
     Types.isResearchLike := false;
     Types.researchScore := 0.2;
     Types.notes := None |}.

Definition janeAustin : PublicResearcher :=
  named "Jane Doe" (Some "Austin, TX") low ["https://news.example/1"] 0.5.

Definition janePaloAlto : PublicResearcher :=
  named "jane doe " (Some "Palo Alto, CA") high ["https://news.example/2"] 0.3.

Definition janeNowhere : PublicResearcher :=
  named "Jane Doe" None high ["https://x.ai"] 0.

Definition janeBerlin : PublicResearcher :=
  named "JANE DOE" (Some "Berlin") low ["https://twitter.com/jane"] 0.3.

(** Two articles that mention Jane Doe next to "xai engineer" and
    "working at xai". *)
Definition articles : list Mapper.Article :=
  [ Mapper.mkArticle "Jane Doe joined xAI"
      (Some "The xAI engineer Jane Doe said") None "https://news.example/1";
    Mapper.mkArticle "More on xAI" None
      (Some "Working at xAI, Jane Doe and Elon Musk") "https://news.example/2" ].

End Examples.

(** * Properties *)

Import JS.

(** ** The model on small inputs *)

Example includes_substring :
  includes "hello world" "lo w" = true /\ includes "abc" "abcd" = false
  /\ includes "" "" = true /\ includes "" "a" = false.
Proof. repeat split. Qed.

Example normalized_name : trim (toLowerCase "  Jane DOE ") = "jane doe".
Proof. reflexivity. Qed.

Example assessLocationConfidence_samples :
  Mapper.assessLocationConfidence "Mountain View, CA" = high
  /\ Mapper.assessLocationConfidence "Sacramento, California" = medium
  /\ Mapper.assessLocationConfidence "Chicago" = medium
  /\ Mapper.assessLocationConfidence "Berlin" = low.
Proof. repeat split. Qed.

Example computeResearchScore_three_hits :
  Mapper.computeResearchScore "research scientist working on ml" == 3 / 9 + 0.2.
Proof. reflexivity. Qed.

Example arrayFromSet_first_occurrences :
  arrayFromSet ["a"; "b"; "a"; "c"; "b"] = ["a"; "b"; "c"].
Proof. reflexivity. Qed.

Example same_profile_merges :
  map (fun m => (name m, locationConfidence m, Types.isResearchLike m))
      (Mapper.deduplicatePeople [Examples.alice; Examples.aliceMoved])
  = [("Alice Ames", high, true)].
Proof. reflexivity. Qed.

(** ** Lists, sets and the map *)

Section ListFacts.

Context {A : Type}.

Lemma existsb_filter_length (f : A -> bool) (l : list A) :
  existsb f l = negb (List.length (filter f l) =? 0)%nat.
Proof.
  induction l as [| x l IH]; simpl; [reflexivity |].
  destruct (f x); simpl; [reflexivity | exact IH].
Qed.

End ListFacts.

(** ** Scores *)

Lemma score_of_hits (h : nat) :
  0.2 <= Qmin 1 (inject_Z (Z.of_nat h) / inject_Z (Z.of_nat 9) + 0.2)
  /\ (0.2 < Qmin 1 (inject_Z (Z.of_nat h) / inject_Z (Z.of_nat 9) + 0.2)
      <-> h <> 0%nat)
  /\ Qmin 1 (inject_Z (Z.of_nat h) / inject_Z (Z.of_nat 9) + 0.2) <= 1.
Proof.
  assert (E : inject_Z (Z.of_nat h) / inject_Z (Z.of_nat 9) + 0.2
              == (Z.of_nat h # 9) + (2 # 10)).
  { unfold Qdiv, Qeq; simpl; lia. }
  split; [| split].
  - apply Q.min_glb; [unfold Qle; simpl; lia |].
    rewrite E. unfold Qle; simpl; lia.
  - rewrite Q.min_glb_lt_iff, E. split.
    + intros [_ H] ->. revert H. unfold Qlt; simpl; lia.
    + intros H. split; unfold Qlt; simpl; lia.
  - apply Q.le_min_l.
Qed.

(** C10: [computeResearchScore] never goes below 0.2, and exceeds 0.2
    exactly on the texts [isResearchLike] accepts. *)
Theorem computeResearchScore_floor_iff_isResearchLike (t : string) :
  0.2 <= Mapper.computeResearchScore t
  /\ (0.2 < Mapper.computeResearchScore t <-> Mapper.isResearchLike t = true).
Proof.
  unfold Mapper.computeResearchScore, Mapper.isResearchLike.
  change (List.length Mapper.keywords) with 9%nat.
  destruct (score_of_hits
              (List.length (filter (fun k => includes t k) Mapper.keywords)))
    as (Hfloor & Hiff & _).
  split; [exact Hfloor |].
  rewrite Hiff, existsb_filter_length, negb_true_iff, Nat.eqb_neq.
  reflexivity.
Qed.

(** ** The map [seen] *)

Lemma seen_get_set_same (k : string) (v : PublicResearcher) (seen : Mapper.SeenMap) :
  Mapper.seen_get k (Mapper.seen_set k v seen) = Some v.
Proof.
  induction seen as [| [k' w] rest IH]; simpl.
  - now rewrite String.eqb_refl.
  - destruct (k' =? k) eqn:E; simpl; rewrite E; [reflexivity | exact IH].
Qed.

Lemma seen_get_set_other (k k' : string) (v : PublicResearcher) (seen : Mapper.SeenMap) :
  k <> k' ->
  Mapper.seen_get k' (Mapper.seen_set k v seen) = Mapper.seen_get k' seen.
Proof.
  intros Hne. induction seen as [| [k0 w] rest IH]; simpl.
  - destruct (k =? k') eqn:E; [apply String.eqb_eq in E; contradiction | reflexivity].
  - destruct (k0 =? k) eqn:E; simpl.
    + apply String.eqb_eq in E; subst k0.
      destruct (k =? k') eqn:E'; [apply String.eqb_eq in E'; contradiction | reflexivity].
    + destruct (k0 =? k'); [reflexivity | exact IH].
Qed.

Lemma seen_set_keys (k : string) (v : PublicResearcher) (seen : Mapper.SeenMap) :
  map fst (Mapper.seen_set k v seen) = setAdd (map fst seen) k.
Proof.
  unfold setAdd. induction seen as [| [k' w] rest IH]; simpl; [reflexivity |].
  rewrite (String.eqb_sym k k').
  destruct (k' =? k); simpl; [reflexivity |].
  rewrite IH. now destruct (existsb (String.eqb k) (map fst rest)).
Qed.

Lemma seen_set_values (k : string) (v x : PublicResearcher) (seen : Mapper.SeenMap) :
  In x (Mapper.seen_values (Mapper.seen_set k v seen)) ->
  x = v \/ In x (Mapper.seen_values seen).
Proof.
  unfold Mapper.seen_values.
  induction seen as [| [k' w] rest IH]; simpl.
  - intuition.
  - destruct (k' =? k); simpl; intuition.
Qed.

Lemma seen_get_values (k : string) (v : PublicResearcher) (seen : Mapper.SeenMap) :
  Mapper.seen_get k seen = Some v -> In v (Mapper.seen_values seen).
Proof.
  unfold Mapper.seen_values.
  induction seen as [| [k' w] rest IH]; simpl; [discriminate |].
  destruct (k' =? k); [intros [= ->]; now left | intros H; right; auto].
Qed.

Lemma dedupStep_keys (seen : Mapper.SeenMap) (p : PublicResearcher) :
  map fst (Mapper.dedupStep seen p) = setAdd (map fst seen) (Mapper.mergeKey p).
Proof.
  unfold Mapper.dedupStep.
  destruct (Mapper.seen_get (Mapper.mergeKey p) seen); apply seen_set_keys.
Qed.

Lemma fold_dedupStep_keys (people : list PublicResearcher) (seen : Mapper.SeenMap) :
  map fst (fold_left Mapper.dedupStep people seen)
  = fold_left setAdd (map Mapper.mergeKey people) (map fst seen).
Proof.
  revert seen. induction people as [| p people IH]; intros seen; simpl; [reflexivity |].
  now rewrite IH, dedupStep_keys.
Qed.

(** The entry of [person]'s key after one step: the person itself for a new
    key, the merged record otherwise. *)
Lemma dedupStep_get (seen : Mapper.SeenMap) (p : PublicResearcher) :
  Mapper.seen_get (Mapper.mergeKey p) (Mapper.dedupStep seen p)
  = Some match Mapper.seen_get (Mapper.mergeKey p) seen with
         | None => p
         | Some existing => Mapper.mergePerson existing p
         end.
Proof.
  unfold Mapper.dedupStep.
  destruct (Mapper.seen_get (Mapper.mergeKey p) seen); apply seen_get_set_same.
Qed.

(** ** Insertion-ordered sets *)

Lemma existsb_eqb_In (x : string) (l : list string) :
  existsb (String.eqb x) l = true <-> In x l.
Proof.
  rewrite existsb_exists. split.
  - intros (y & Hy & E). apply String.eqb_eq in E. now subst.
  - intros H. exists x. split; [exact H | apply String.eqb_refl].
Qed.

Lemma setAdd_In (acc : list string) (x y : string) :
  In y (setAdd acc x) <-> In y acc \/ y = x.
Proof.
  unfold setAdd. destruct (existsb (String.eqb x) acc) eqn:E.
  - apply existsb_eqb_In in E. split; [tauto | intros [H | ->]; assumption].
  - rewrite in_app_iff. simpl. intuition.
Qed.

Lemma fold_setAdd_In (l acc : list string) (y : string) :
  In y (fold_left setAdd l acc) <-> In y acc \/ In y l.
Proof.
  revert acc. induction l as [| x l IH]; intros acc; simpl; [tauto |].
  rewrite IH, setAdd_In. intuition.
Qed.

Lemma setAdd_NoDup (acc : list string) (x : string) :
  NoDup acc -> NoDup (setAdd acc x).
Proof.
  intros H. unfold setAdd. destruct (existsb (String.eqb x) acc) eqn:E; [exact H |].
  apply NoDup_app; [exact H | repeat constructor; intros [] |].
  intros y Hy [<- | []].
  apply existsb_eqb_In in Hy. congruence.
Qed.

Lemma fold_setAdd_NoDup (l acc : list string) :
  NoDup acc -> NoDup (fold_left setAdd l acc).
Proof.
  revert acc. induction l as [| x l IH]; intros acc H; simpl; [exact H |].
  apply IH, setAdd_NoDup, H.
Qed.

(** Adding elements the set already holds leaves it as it is. *)
Lemma fold_setAdd_absorb (l acc : list string) :
  (forall x, In x l -> In x acc) -> fold_left setAdd l acc = acc.
Proof.
  induction l as [| x l IH]; intros H; simpl; [reflexivity |].
  assert (E : setAdd acc x = acc).
  { unfold setAdd. now rewrite (proj2 (existsb_eqb_In x acc) (H x (or_introl eq_refl))). }
  rewrite E. apply IH. intros y Hy. apply H. now right.
Qed.

(** A list without duplicates goes through a set unchanged. *)
Lemma fold_setAdd_fresh (l acc : list string) :
  NoDup (acc ++ l) -> fold_left setAdd l acc = (acc ++ l)%list.
Proof.
  revert acc. induction l as [| x l IH]; intros acc H; simpl.
  - now rewrite app_nil_r.
  - assert (E : setAdd acc x = (acc ++ [x])%list).
    { unfold setAdd. destruct (existsb (String.eqb x) acc) eqn:Ex; [| reflexivity].
      apply existsb_eqb_In in Ex. apply NoDup_remove_2 in H.
      exfalso. apply H. apply in_or_app. now left. }
    rewrite E, IH; rewrite <- app_assoc; [reflexivity | exact H].
Qed.

Lemma arrayFromSet_In (l : list string) (y : string) :
  In y (arrayFromSet l) <-> In y l.
Proof. unfold arrayFromSet. rewrite fold_setAdd_In. simpl. tauto. Qed.

Lemma arrayFromSet_NoDup (l : list string) : NoDup (arrayFromSet l).
Proof. apply fold_setAdd_NoDup. constructor. Qed.

Lemma arrayFromSet_fresh (l : list string) : NoDup l -> arrayFromSet l = l.
Proof. intros H. unfold arrayFromSet. now rewrite fold_setAdd_fresh. Qed.

(** ** Which candidates merge (C1, C2) *)

(** C1, as stated, fails: two contributors with distinct GitHub profiles who
    list the same homepage share an identity-link value, and the resolver
    keeps them apart. *)
Lemma shared_homepage_not_merged :
  Spec.sameIdentity Examples.alice Examples.bob = true
  /\ List.length (Mapper.deduplicatePeople [Examples.alice; Examples.bob]) = 2%nat.
Proof. split; reflexivity. Qed.

(** C1 (amended): the identities of a run are the distinct merge keys of its
    candidates, in order of first appearance; so two candidates merge into
    one identity exactly when their merge keys are equal, whatever their
    locations, scores and other fields are, and a candidate leaves the
    identities of all other keys as they were. *)
Theorem merge_iff_same_mergeKey
  (people : list PublicResearcher) (a b : PublicResearcher) (seen : Mapper.SeenMap) :
  map fst (Mapper.dedupSeen people) = arrayFromSet (map Mapper.mergeKey people)
  /\ (List.length (Mapper.deduplicatePeople [a; b]) = 1%nat
      <-> Mapper.mergeKey a = Mapper.mergeKey b)
  /\ (List.length (Mapper.deduplicatePeople [a; b]) = 2%nat
      <-> Mapper.mergeKey a <> Mapper.mergeKey b)
  /\ (forall k, k <> Mapper.mergeKey a ->
      Mapper.seen_get k (Mapper.dedupStep seen a) = Mapper.seen_get k seen).
Proof.
  assert (F : forall k, k <> Mapper.mergeKey a ->
              Mapper.seen_get k (Mapper.dedupStep seen a) = Mapper.seen_get k seen).
  { intros k Hk. unfold Mapper.dedupStep.
    destruct (Mapper.seen_get (Mapper.mergeKey a) seen);
      apply seen_get_set_other; congruence. }
  rewrite <- !and_assoc. split; [| exact F]. rewrite and_assoc.
  assert (K : forall l, map fst (Mapper.dedupSeen l) = arrayFromSet (map Mapper.mergeKey l)).
  { intros l. unfold Mapper.dedupSeen. now rewrite fold_dedupStep_keys. }
  split; [apply K |].
  assert (L : List.length (Mapper.deduplicatePeople [a; b])
              = if Mapper.mergeKey b =? Mapper.mergeKey a then 1%nat else 2%nat).
  { unfold Mapper.deduplicatePeople, Mapper.seen_values.
    rewrite length_map, <- (length_map fst), K. cbn.
    unfold setAdd; simpl.
    now destruct (Mapper.mergeKey b =? Mapper.mergeKey a). }
  rewrite L. destruct (Mapper.mergeKey b =? Mapper.mergeKey a) eqn:E.
  - apply String.eqb_eq in E. split; split; intros H; congruence.
  - apply String.eqb_neq in E. split; split; intros H; congruence.
Qed.

(** C2, as stated, fails: a candidate whose only link is a homepage is keyed
    by its normalized name, not by the homepage. *)
Lemma homepage_is_not_a_mergeKey :
  Spec.mergeKey Examples.janeHome = "https://jane.example"
  /\ Mapper.mergeKey Examples.janeHome = "jane doe"
  /\ map fst (Mapper.dedupSeen [Examples.janeHome]) = ["jane doe"].
Proof. repeat split. Qed.

(** C2 (amended): the merge key is the GitHub link when it is non-empty,
    otherwise the OpenAlex link when it is non-empty, otherwise the
    lower-cased, trimmed name; the homepage link takes no part. After a
    step, the candidate's identity is stored under that key. *)
Theorem mergeKey_priority (seen : Mapper.SeenMap) (p : PublicResearcher) :
  Mapper.mergeKey p
  = (if truthy (githubUrl p) then linkValue (githubUrl p)
     else if truthy (openAlexUrl p) then linkValue (openAlexUrl p)
     else trim (toLowerCase (name p)))
  /\ (exists identity,
        Mapper.seen_get (Mapper.mergeKey p) (Mapper.dedupStep seen p) = Some identity)
  /\ In (Mapper.mergeKey p) (map fst (Mapper.dedupStep seen p)).
Proof.
  split; [| split].
  - unfold Mapper.mergeKey, linkValue, orElse, truthy.
    destruct (githubUrl p) as [g |]; [destruct (truthyStr g); [reflexivity |] |];
      (destruct (openAlexUrl p) as [o |]; [destruct (truthyStr o) |]; reflexivity).
  - rewrite dedupStep_get. eauto.
  - rewrite dedupStep_keys. apply setAdd_In. now right.
Qed.

(** ** Merging into an existing identity (C3, C4) *)

(** C3, as stated, fails in both directions: a strictly higher tier replaces
    the stored tier and leaves a recorded location in place, and a
    candidate of a lower tier fills in a location that was missing. *)
Lemma location_not_updated_with_tier :
  Mapper.seen_get "jane doe" (Mapper.dedupSeen [Examples.janeAustin])
    = Some Examples.janeAustin
  /\ Mapper.mergeKey Examples.janePaloAlto = "jane doe"
  /\ Spec.bestLocation Examples.janeAustin Examples.janePaloAlto
     = (Some "Palo Alto, CA", high)
  /\ map (fun m => (location m, locationConfidence m))
         (Mapper.deduplicatePeople [Examples.janeAustin; Examples.janePaloAlto])
     = [(Some "Austin, TX", high)]
  /\ Spec.bestLocation Examples.janeNowhere Examples.janeBerlin = (None, high)
  /\ map (fun m => (location m, locationConfidence m))
         (Mapper.deduplicatePeople [Examples.janeNowhere; Examples.janeBerlin])
     = [(Some "Berlin", high)].
Proof. repeat split. Qed.

(** C3 (amended): when a candidate merges into an existing identity, the
    stored tier is replaced by the candidate's tier exactly when the
    candidate's tier is strictly higher, and the location is the stored one
    when that is non-empty and the candidate's otherwise, whatever the
    tiers. Merging a low candidate into a high identity leaves the tier
    high and leaves a recorded location as it was. *)
Theorem merge_location_and_tier
  (seen : Mapper.SeenMap) (person existing : PublicResearcher) :
  Mapper.seen_get (Mapper.mergeKey person) seen = Some existing ->
  exists merged,
    Mapper.seen_get (Mapper.mergeKey person) (Mapper.dedupStep seen person) = Some merged
    /\ locationConfidence merged
       = (if (Mapper.confRank (locationConfidence person)
              >? Mapper.confRank (locationConfidence existing))%Z
          then locationConfidence person
          else locationConfidence existing)
    /\ location merged
       = (if truthy (location existing) then location existing else location person)
    /\ (locationConfidence person = low ->
        locationConfidence existing = high ->
        locationConfidence merged = high
        /\ (truthy (location existing) = true -> location merged = location existing)).
Proof.
  intros Hget. exists (Mapper.mergePerson existing person).
  rewrite dedupStep_get, Hget. split; [reflexivity |].
  split; [reflexivity |]. split; [reflexivity |].
  intros Hp He. simpl. rewrite Hp, He. split; [reflexivity |].
  unfold jsOr. now intros ->.
Qed.

Lemma merge_location_and_tier_witness :
  exists merged,
    Mapper.seen_get (Mapper.mergeKey Examples.janePaloAlto)
      (Mapper.dedupStep (Mapper.dedupSeen [Examples.janeAustin]) Examples.janePaloAlto)
    = Some merged
    /\ locationConfidence merged
       = (if (Mapper.confRank (locationConfidence Examples.janePaloAlto)
              >? Mapper.confRank (locationConfidence Examples.janeAustin))%Z
          then locationConfidence Examples.janePaloAlto
          else locationConfidence Examples.janeAustin)
    /\ location merged
       = (if truthy (location Examples.janeAustin)
          then location Examples.janeAustin else location Examples.janePaloAlto)
    /\ (locationConfidence Examples.janePaloAlto = low ->
        locationConfidence Examples.janeAustin = high ->
        locationConfidence merged = high
        /\ (truthy (location Examples.janeAustin) = true ->
            location merged = location Examples.janeAustin)).
Proof.
  apply (merge_location_and_tier
           (Mapper.dedupSeen [Examples.janeAustin])
           Examples.janePaloAlto Examples.janeAustin).
  reflexivity.
Defined.

(** C4: a candidate of score [s] that merges into an identity of score [e]
    leaves it with the score [min(1, max(e, s) + 0.1)]. *)
Theorem merge_score (seen : Mapper.SeenMap) (person existing : PublicResearcher) :
  Mapper.seen_get (Mapper.mergeKey person) seen = Some existing ->
  exists merged,
    Mapper.seen_get (Mapper.mergeKey person) (Mapper.dedupStep seen person) = Some merged
    /\ researchScore merged
       = Qmin 1 (Qmax (researchScore existing) (researchScore person) + 0.1).
Proof.
  intros Hget. exists (Mapper.mergePerson existing person).
  rewrite dedupStep_get, Hget. split; reflexivity.
Qed.

Lemma merge_score_witness :
  exists merged,
    Mapper.seen_get (Mapper.mergeKey Examples.janePaloAlto)
      (Mapper.dedupStep (Mapper.dedupSeen [Examples.janeAustin]) Examples.janePaloAlto)
    = Some merged
    /\ researchScore merged
       = Qmin 1 (Qmax (researchScore Examples.janeAustin)
                      (researchScore Examples.janePaloAlto) + 0.1).
Proof.
  apply (merge_score (Mapper.dedupSeen [Examples.janeAustin])
           Examples.janePaloAlto Examples.janeAustin).
  reflexivity.
Defined.

(** ** Score bounds (C7) *)

Lemma computeResearchScore_range (t : string) :
  0 <= Mapper.computeResearchScore t /\ Mapper.computeResearchScore t <= 1.
Proof.
  unfold Mapper.computeResearchScore.
  change (List.length Mapper.keywords) with 9%nat.
  destruct (score_of_hits
              (List.length (filter (fun k => includes t k) Mapper.keywords)))
    as (Hfloor & _ & Hcap).
  split; [| exact Hcap].
  apply Qle_trans with (2 := Hfloor). unfold Qle; simpl; lia.
Qed.

Ltac constant_score := split; unfold Qle; simpl; lia.

(** Every connector pushes a score within [0, 1]. *)
Lemma pushed_scoreInRange (p : PublicResearcher) :
  Pipeline.pushed p -> Pipeline.scoreInRange p.
Proof.
  unfold Pipeline.scoreInRange.
  destruct 1 as [url nameText titleText p Hsite | | | repoName login user
                | display_name works lg instName country openAlexId Hlg | | | | |];
    try (simpl; constant_score);
    try (simpl; apply computeResearchScore_range).
  - unfold Mapper.scrapeXAISite in Hsite.
    destruct (negb _) in Hsite; [discriminate |].
    injection Hsite as <-. simpl. constant_score.
  - simpl. destruct (GithubReposScraper.testPattern _); constant_score.
  - simpl. split; [| apply Q.le_min_l].
    apply Q.min_glb; [unfold Qle; simpl; lia |].
    assert (H : 0 <= lg / 2) by (apply Qle_shift_div_l; [reflexivity | lra]).
    lra.
Qed.

Lemma mergePerson_scoreInRange (existing person : PublicResearcher) :
  Pipeline.scoreInRange existing ->
  Pipeline.scoreInRange (Mapper.mergePerson existing person).
Proof.
  unfold Pipeline.scoreInRange. intros [Hlo _]. simpl.
  split; [| apply Q.le_min_l].
  apply Q.min_glb; [unfold Qle; simpl; lia |].
  pose proof (Q.le_max_l (researchScore existing) (researchScore person)).
  lra.
Qed.

Lemma dedupStep_scoreInRange (seen : Mapper.SeenMap) (p : PublicResearcher) :
  Forall Pipeline.scoreInRange (Mapper.seen_values seen) ->
  Pipeline.scoreInRange p ->
  Forall Pipeline.scoreInRange (Mapper.seen_values (Mapper.dedupStep seen p)).
Proof.
  intros Hseen Hp. rewrite Forall_forall in *. intros x Hx.
  unfold Mapper.dedupStep in Hx.
  destruct (Mapper.seen_get (Mapper.mergeKey p) seen) as [existing |] eqn:Hget;
    apply seen_set_values in Hx; destruct Hx as [-> | Hx]; auto.
  apply mergePerson_scoreInRange, Hseen, (seen_get_values _ _ _ Hget).
Qed.

Lemma fold_dedupStep_scoreInRange (people : list PublicResearcher) (seen : Mapper.SeenMap) :
  Forall Pipeline.scoreInRange (Mapper.seen_values seen) ->
  Forall Pipeline.scoreInRange people ->
  Forall Pipeline.scoreInRange
    (Mapper.seen_values (fold_left Mapper.dedupStep people seen)).
Proof.
  revert seen. induction people as [| p people IH]; intros seen Hseen Hall; simpl.
  - exact Hseen.
  - inversion Hall; subst. apply IH; [apply dedupStep_scoreInRange |]; assumption.
Qed.

Lemma deduplicatePeople_scoreInRange (people : list PublicResearcher) :
  Forall Pipeline.scoreInRange people ->
  Forall Pipeline.scoreInRange (Mapper.deduplicatePeople people).
Proof.
  intros H. apply fold_dedupStep_scoreInRange; [constructor | exact H].
Qed.

(** C7: in every reachable working set, every score lies in [0, 1]; so does
    every score of the map [seen] at any point of a deduplication pass over
    it. *)
Theorem reachable_scoreInRange (people : list PublicResearcher) :
  Pipeline.reachable people ->
  Forall Pipeline.scoreInRange people
  /\ forall k, Forall Pipeline.scoreInRange
                 (Mapper.seen_values (Mapper.dedupSeen (firstn k people))).
Proof.
  intros Hreach.
  assert (Hall : Forall Pipeline.scoreInRange people).
  { induction Hreach as [| people p _ IH Hp | people _ IH].
    - constructor.
    - apply Forall_app. split; [exact IH |].
      constructor; [apply pushed_scoreInRange, Hp | constructor].
    - apply deduplicatePeople_scoreInRange, IH. }
  split; [exact Hall |].
  intros k. apply deduplicatePeople_scoreInRange.
  rewrite Forall_forall in *. intros x Hx. apply Hall.
  rewrite <- (firstn_skipn k people). apply in_or_app. now left.
Qed.

Lemma reachable_scoreInRange_witness :
  Forall Pipeline.scoreInRange
    (Mapper.deduplicatePeople
       (Mapper.deduplicatePeople (([] ++ [Examples.bobMember]) ++ [Examples.bob])
        ++ [Examples.alice]))
  /\ forall k, Forall Pipeline.scoreInRange
                 (Mapper.seen_values
                    (Mapper.dedupSeen
                       (firstn k
                          (Mapper.deduplicatePeople
                             (Mapper.deduplicatePeople
                                (([] ++ [Examples.bobMember]) ++ [Examples.bob])
                              ++ [Examples.alice]))))).
Proof.
  apply reachable_scoreInRange.
  apply Pipeline.reachable_dedup, Pipeline.reachable_push.
  - apply Pipeline.reachable_dedup, Pipeline.reachable_push.
    + apply Pipeline.reachable_push.
      * apply Pipeline.reachable_init.
      * apply Pipeline.pushed_orgMember.
    + apply Pipeline.pushed_contributor.
  - apply Pipeline.pushed_contributor.
Defined.

(** ** Merging the same candidate twice (C8) *)

Lemma jsOr_absorb (a b : option string) : jsOr (jsOr a b) b = jsOr a b.
Proof.
  unfold jsOr. destruct (truthy a) eqn:Ha; [now rewrite Ha |].
  now destruct (truthy b).
Qed.

Lemma jsOr_same (a : option string) : jsOr a a = a.
Proof. unfold jsOr. now destruct (truthy a). Qed.

(** A second merge of the same score adds 0.1 to the first result, up to the
    cap. *)
Lemma score_second_merge (e s : Q) :
  Qmin 1 (Qmax (Qmin 1 (Qmax e s + 0.1)) s + 0.1)
  == Qmin 1 (Qmin 1 (Qmax e s + 0.1) + 0.1).
Proof.
  destruct (Q.max_spec e s) as [[? E1] | [? E1]];
    destruct (Q.min_spec 1 (Qmax e s + 0.1)) as [[? E2] | [? E2]];
    destruct (Q.max_spec (Qmin 1 (Qmax e s + 0.1)) s) as [[? E3] | [? E3]];
    destruct (Q.min_spec 1 (Qmax (Qmin 1 (Qmax e s + 0.1)) s + 0.1)) as [[? E4] | [? E4]];
    destruct (Q.min_spec 1 (Qmin 1 (Qmax e s + 0.1) + 0.1)) as [[? E5] | [? E5]];
    rewrite E4, E5; lra.
Qed.

Lemma score_self_merge (s : Q) : Qmin 1 (Qmax s s + 0.1) == Qmin 1 (s + 0.1).
Proof.
  destruct (Q.max_spec s s) as [[? E1] | [? E1]];
    destruct (Q.min_spec 1 (Qmax s s + 0.1)) as [[? E2] | [? E2]];
    destruct (Q.min_spec 1 (s + 0.1)) as [[? E3] | [? E3]];
    rewrite E2, E3; lra.
Qed.

Lemma tier_absorb (e p : Confidence) :
  let m := if (Mapper.confRank p >? Mapper.confRank e)%Z then p else e in
  (if (Mapper.confRank p >? Mapper.confRank m)%Z then p else m) = m.
Proof. destruct e, p; reflexivity. Qed.

(** C8: merging a candidate into the working set a second time leaves its
    identity as the first merge made it -- name, links, location, tier,
    relevance flag and the set of sources (the very array when the
    candidate's own sources hold no duplicate) -- and raises the score by
    0.1, capped at 1. *)
Theorem merge_twice (seen : Mapper.SeenMap) (person : PublicResearcher) :
  let once := Mapper.dedupStep seen person in
  let twice := Mapper.dedupStep once person in
  exists first second,
    Mapper.seen_get (Mapper.mergeKey person) once = Some first
    /\ Mapper.seen_get (Mapper.mergeKey person) twice = Some second
    /\ map fst twice = map fst once
    /\ name second = name first
    /\ githubUrl second = githubUrl first
    /\ openAlexUrl second = openAlexUrl first
    /\ homepageUrl second = homepageUrl first
    /\ xaiPageUrl second = xaiPageUrl first
    /\ location second = location first
    /\ locationConfidence second = locationConfidence first
    /\ Types.isResearchLike second = Types.isResearchLike first
    /\ (forall x, In x (otherSources second) <-> In x (otherSources first))
    /\ (NoDup (otherSources person) -> otherSources second = otherSources first)
    /\ researchScore second == Qmin 1 (researchScore first + 0.1).
Proof.
  intros once twice.
  assert (Hkeys : map fst twice = map fst once).
  { unfold twice. rewrite dedupStep_keys. unfold setAdd.
    assert (Hin : In (Mapper.mergeKey person) (map fst once)).
    { unfold once. rewrite dedupStep_keys. apply setAdd_In. now right. }
    now rewrite (proj2 (existsb_eqb_In _ _) Hin). }
  pose proof (dedupStep_get seen person) as H1. fold once in H1.
  pose proof (dedupStep_get once person) as H2. fold twice in H2.
  rewrite H1 in H2.
  destruct (Mapper.seen_get (Mapper.mergeKey person) seen) as [existing |].
  - exists (Mapper.mergePerson existing person),
           (Mapper.mergePerson (Mapper.mergePerson existing person) person).
    split; [exact H1 |]. split; [exact H2 |]. split; [exact Hkeys |].
    simpl. rewrite !jsOr_absorb.
    repeat (split; [reflexivity |]).
    split; [apply tier_absorb |].
    split; [now rewrite <- orb_assoc, orb_diag |].
    assert (Hsrc : arrayFromSet
                     (arrayFromSet (otherSources existing ++ otherSources person)
                      ++ otherSources person)
                   = arrayFromSet (otherSources existing ++ otherSources person)).
    { unfold arrayFromSet at 1. rewrite fold_left_app.
      fold (arrayFromSet (arrayFromSet (otherSources existing ++ otherSources person))).
      rewrite (arrayFromSet_fresh _ (arrayFromSet_NoDup _)).
      apply fold_setAdd_absorb. intros x Hx.
      apply arrayFromSet_In, in_or_app. now right. }
    rewrite Hsrc. split; [tauto |]. split; [reflexivity |].
    apply score_second_merge.
  - exists person, (Mapper.mergePerson person person).
    split; [exact H1 |]. split; [exact H2 |]. split; [exact Hkeys |].
    simpl. rewrite !jsOr_same.
    repeat (split; [reflexivity |]).
    split; [now destruct (locationConfidence person) |].
    split; [apply orb_diag |].
    split; [| split].
    + intros x. rewrite arrayFromSet_In, in_app_iff. tauto.
    + intros Hnd. unfold arrayFromSet. rewrite fold_left_app.
      fold (arrayFromSet (otherSources person)).
      rewrite (arrayFromSet_fresh _ Hnd).
      apply fold_setAdd_absorb. auto.
    + apply score_self_merge.
Qed.

(** ** Order of arrival (C9) *)

Lemma truthy_linkValue (a : option string) :
  truthy a = negb (linkValue a =? "").
Proof.
  unfold truthy, linkValue, orElse, truthyStr.
  destruct a as [s |]; [| reflexivity].
  destruct (s =? "") eqn:E; simpl; [reflexivity | now rewrite E].
Qed.

Lemma linkValue_jsOr (a b : option string) :
  linkValue (jsOr a b)
  = if truthy a then linkValue a else linkValue b.
Proof. unfold jsOr. now destruct (truthy a). Qed.

(** [a || b] and [b || a] hold the same value unless [a] and [b] are two
    different non-empty values. *)
Lemma linkValue_jsOr_comm (a b : option string) :
  linkValue a = "" \/ linkValue b = ""
  \/ linkValue a = linkValue b ->
  linkValue (jsOr a b) = linkValue (jsOr b a).
Proof.
  rewrite !linkValue_jsOr, !truthy_linkValue.
  destruct (linkValue a =? "") eqn:Ea; destruct (linkValue b =? "") eqn:Eb;
    simpl; try reflexivity.
  - apply String.eqb_eq in Ea, Eb. congruence.
  - apply String.eqb_neq in Ea, Eb. intros [H | [H | H]]; congruence.
Qed.

Lemma mergeKey_github (p : PublicResearcher) :
  truthy (githubUrl p) = true -> Mapper.mergeKey p = linkValue (githubUrl p).
Proof.
  unfold Mapper.mergeKey, linkValue, truthy, orElse.
  destruct (githubUrl p) as [g |]; [| discriminate].
  now intros ->.
Qed.

Lemma deduplicatePeople_pair (a b : PublicResearcher) :
  Mapper.mergeKey a = Mapper.mergeKey b ->
  Mapper.deduplicatePeople [a; b] = [Mapper.mergePerson a b].
Proof.
  intros H. unfold Mapper.deduplicatePeople, Mapper.dedupSeen; simpl.
  unfold Mapper.dedupStep at 2; simpl.
  unfold Mapper.dedupStep; simpl.
  now rewrite H, String.eqb_refl.
Qed.

(** C9, as stated, fails: two candidates with the same merge key and
    different homepages leave the identity with the homepage of whichever
    came first. *)
Lemma links_depend_on_order :
  Mapper.mergeKey Examples.alice = Mapper.mergeKey Examples.aliceMoved
  /\ map Spec.identityLinks
         (Mapper.deduplicatePeople [Examples.alice; Examples.aliceMoved])
     = [["https://github.com/alice"; "https://x.ai"]]
  /\ map Spec.identityLinks
         (Mapper.deduplicatePeople [Examples.aliceMoved; Examples.alice])
     = [["https://github.com/alice"; "https://alice.example"]].
Proof. repeat split. Qed.

(** C9 (amended): two candidates with the same merge key give, in either
    order, one identity with the same relevance flag, the same set of
    sources, the same GitHub link, and the same value of every other link
    field on which they do not carry two different non-empty values; when
    they do, the first-seen value is kept, as it is for the name. *)
Theorem merge_order (a b : PublicResearcher) :
  Mapper.mergeKey a = Mapper.mergeKey b ->
  exists ab ba,
    Mapper.deduplicatePeople [a; b] = [ab]
    /\ Mapper.deduplicatePeople [b; a] = [ba]
    /\ Types.isResearchLike ab = Types.isResearchLike ba
    /\ (forall x, In x (otherSources ab) <-> In x (otherSources ba))
    /\ linkValue (githubUrl ab) = linkValue (githubUrl ba)
    /\ (linkValue (openAlexUrl a) = "" \/ linkValue (openAlexUrl b) = ""
        \/ linkValue (openAlexUrl a) = linkValue (openAlexUrl b) ->
        linkValue (openAlexUrl ab) = linkValue (openAlexUrl ba))
    /\ (linkValue (homepageUrl a) = "" \/ linkValue (homepageUrl b) = ""
        \/ linkValue (homepageUrl a) = linkValue (homepageUrl b) ->
        linkValue (homepageUrl ab) = linkValue (homepageUrl ba))
    /\ (truthy (openAlexUrl a) = true -> truthy (openAlexUrl b) = true ->
        openAlexUrl ab = openAlexUrl a /\ openAlexUrl ba = openAlexUrl b)
    /\ (truthy (homepageUrl a) = true -> truthy (homepageUrl b) = true ->
        homepageUrl ab = homepageUrl a /\ homepageUrl ba = homepageUrl b)
    /\ name ab = name a
    /\ name ba = name b.
Proof.
  intros Hkey.
  exists (Mapper.mergePerson a b), (Mapper.mergePerson b a).
  split; [apply deduplicatePeople_pair, Hkey |].
  split; [apply deduplicatePeople_pair; symmetry; exact Hkey |].
  simpl.
  split; [apply orb_comm |].
  split; [intros x; rewrite !arrayFromSet_In, !in_app_iff; tauto |].
  split.
  { apply linkValue_jsOr_comm.
    destruct (truthy (githubUrl a)) eqn:Ha; destruct (truthy (githubUrl b)) eqn:Hb.
    - right; right. rewrite <- !mergeKey_github by assumption. exact Hkey.
    - right; left. rewrite truthy_linkValue, negb_false_iff in Hb.
      now apply String.eqb_eq.
    - left. rewrite truthy_linkValue, negb_false_iff in Ha.
      now apply String.eqb_eq.
    - left. rewrite truthy_linkValue, negb_false_iff in Ha.
      now apply String.eqb_eq. }
  split; [apply linkValue_jsOr_comm |].
  split; [apply linkValue_jsOr_comm |].
  unfold jsOr.
  split; [intros -> ->; split; reflexivity |].
  split; [intros -> ->; split; reflexivity |].
  split; reflexivity.
Qed.

Lemma merge_order_witness :
  exists ab ba,
    Mapper.deduplicatePeople [Examples.bobMember; Examples.bob] = [ab]
    /\ Mapper.deduplicatePeople [Examples.bob; Examples.bobMember] = [ba]
    /\ Types.isResearchLike ab = Types.isResearchLike ba
    /\ (forall x, In x (otherSources ab) <-> In x (otherSources ba))
    /\ linkValue (githubUrl ab) = linkValue (githubUrl ba)
    /\ (linkValue (openAlexUrl Examples.bobMember) = ""
        \/ linkValue (openAlexUrl Examples.bob) = ""
        \/ linkValue (openAlexUrl Examples.bobMember)
           = linkValue (openAlexUrl Examples.bob) ->
        linkValue (openAlexUrl ab) = linkValue (openAlexUrl ba))
    /\ (linkValue (homepageUrl Examples.bobMember) = ""
        \/ linkValue (homepageUrl Examples.bob) = ""
        \/ linkValue (homepageUrl Examples.bobMember)
           = linkValue (homepageUrl Examples.bob) ->
        linkValue (homepageUrl ab) = linkValue (homepageUrl ba))
    /\ (truthy (openAlexUrl Examples.bobMember) = true ->
        truthy (openAlexUrl Examples.bob) = true ->
        openAlexUrl ab = openAlexUrl Examples.bobMember
        /\ openAlexUrl ba = openAlexUrl Examples.bob)
    /\ (truthy (homepageUrl Examples.bobMember) = true ->
        truthy (homepageUrl Examples.bob) = true ->
        homepageUrl ab = homepageUrl Examples.bobMember
        /\ homepageUrl ba = homepageUrl Examples.bob)
    /\ name ab = name Examples.bobMember
    /\ name ba = name Examples.bob.
Proof.
  apply (merge_order Examples.bobMember Examples.bob).
  reflexivity.
Defined.

(** ** Location tiers and filters (C5, C6) *)

Lemma existsb_same_elements {A : Type} (f : A -> bool) (l1 l2 : list A) :
  (forall x, In x l1 <-> In x l2) -> existsb f l1 = existsb f l2.
Proof.
  intros H. apply eq_true_iff_eq. rewrite !existsb_exists.
  split; intros (x & Hx & Hf); exists x; split; try apply H; assumption.
Qed.

(** The table lookup of [assessLocationConfidence]; the test for an empty
    text changes nothing, as no keyword occurs in the empty string. *)
Lemma assessLocationConfidence_table (loc : string) :
  Mapper.assessLocationConfidence loc
  = if existsb (fun k => includes (toLowerCase loc) k) Mapper.highConfidenceKeywords
    then high
    else if existsb (fun k => includes (toLowerCase loc) k) Mapper.mediumConfidenceKeywords
         then medium
         else low.
Proof.
  unfold Mapper.assessLocationConfidence.
  destruct loc as [| c loc]; reflexivity.
Qed.

(** The Bay Area keywords are the high and the medium keywords together. *)
Lemma bayAreaKeywords_tiers (x : string) :
  In x Mapper.bayAreaKeywords
  <-> In x (Mapper.highConfidenceKeywords ++ Mapper.mediumConfidenceKeywords).
Proof.
  unfold Mapper.bayAreaKeywords, Mapper.highConfidenceKeywords,
    Mapper.mediumConfidenceKeywords.
  simpl. tauto.
Qed.

Lemma isBayArea_tier (p : PublicResearcher) :
  Mapper.isBayArea p = true
  <-> Mapper.assessLocationConfidence (linkValue (location p)) <> low.
Proof.
  unfold Mapper.isBayArea, linkValue.
  rewrite assessLocationConfidence_table.
  rewrite (existsb_same_elements _ _ _ bayAreaKeywords_tiers), existsb_app.
  destruct (existsb _ Mapper.highConfidenceKeywords);
    destruct (existsb _ Mapper.mediumConfidenceKeywords); simpl;
    split; congruence.
Qed.

(** C5, as stated, fails on the mapper: an identity of unknown location,
    which also meets the threshold [low], is left out of the Bay Area
    subset that [exportResults] computes. *)
Lemma unknown_location_excluded_by_bayAreaPeople :
  Spec.filterByLocation (Mapper.deduplicatePeople [Examples.janeNowhere]) low
    = [Examples.janeNowhere]
  /\ Spec.filterByLocation (Mapper.deduplicatePeople [Examples.janeNowhere]) high
    = [Examples.janeNowhere]
  /\ location Examples.janeNowhere = None
  /\ Mapper.bayAreaPeople [Examples.janeNowhere] = [].
Proof. repeat split. Qed.

(** C5 (amended): [filterByPaloAlto] keeps exactly the researchers whose
    location is unknown or names Palo Alto or the Bay Area, so it never
    drops an unknown location; the Bay Area subset of [exportResults] is
    exactly the identities whose location text is of tier medium or high,
    and it holds no identity of unknown location. Neither takes a threshold
    or reads the stored tier. *)
Theorem location_filters
  (researchers : list ResearcherFocusedScraper.Researcher)
  (r : ResearcherFocusedScraper.Researcher)
  (people : list PublicResearcher) (p : PublicResearcher) :
  (In r (ResearcherFocusedScraper.filterByPaloAlto researchers)
   <-> In r researchers
       /\ (truthy (ResearcherFocusedScraper.location r) = false
           \/ includes (toLowerCase (linkValue (ResearcherFocusedScraper.location r)))
                "palo alto" = true
           \/ includes (toLowerCase (linkValue (ResearcherFocusedScraper.location r)))
                "bay area" = true))
  /\ (In p (Mapper.bayAreaPeople people)
      <-> In p (Mapper.deduplicatePeople people)
          /\ Mapper.assessLocationConfidence (linkValue (location p)) <> low)
  /\ (truthy (location p) = false -> ~ In p (Mapper.bayAreaPeople people)).
Proof.
  assert (Hbay : In p (Mapper.bayAreaPeople people)
                 <-> In p (Mapper.deduplicatePeople people)
                     /\ Mapper.assessLocationConfidence (linkValue (location p)) <> low).
  { unfold Mapper.bayAreaPeople. now rewrite filter_In, isBayArea_tier. }
  split; [| split; [exact Hbay |]].
  - unfold ResearcherFocusedScraper.filterByPaloAlto. rewrite filter_In.
    apply and_iff_compat_l.
    unfold ResearcherFocusedScraper.keepsByPaloAlto, linkValue, orElse, truthy.
    destruct (ResearcherFocusedScraper.location r) as [l |]; [| tauto].
    destruct (truthyStr l) eqn:El; simpl.
    + rewrite orb_false_r, orb_true_iff. intuition congruence.
    + rewrite orb_true_r. tauto.
  - intros Hunknown Hin. apply Hbay in Hin. destruct Hin as [_ Htier].
    apply Htier. rewrite truthy_linkValue, negb_false_iff in Hunknown.
    apply String.eqb_eq in Hunknown. now rewrite Hunknown.
Qed.

(** C6, as stated, fails: the org-members connector rates any non-empty
    location that does not name Palo Alto as medium, where the keyword
    table rates it low. *)
Lemma orgMember_tier_is_not_the_table :
  Pipeline.pushed Examples.bobMember
  /\ location Examples.bobMember = Some "Berlin"
  /\ locationConfidence Examples.bobMember = medium
  /\ Mapper.assessLocationConfidence "Berlin" = low.
Proof.
  split; [apply Pipeline.pushed_orgMember |]. repeat split.
Qed.

(** C6 (amended): [assessLocationConfidence] rates a text high when its
    lower-cased form contains a high-tier keyword, otherwise medium when it
    contains a medium-tier keyword, otherwise low, the empty text included.
    Candidates of [fetchGitHubContributors] get their tier from it;
    candidates of [fetchGitHubOrgMembers] and [fetchOrgContributors] are
    rated high when the location names Palo Alto, medium for any other
    non-empty location, and low without one. *)
Theorem locationConfidence_rules
  (loc repo login commits repoName : string) (user : GitHubUser) :
  Mapper.assessLocationConfidence loc
  = (if existsb (fun k => includes (toLowerCase loc) k) Mapper.highConfidenceKeywords
     then high
     else if existsb (fun k => includes (toLowerCase loc) k) Mapper.mediumConfidenceKeywords
          then medium
          else low)
  /\ Mapper.assessLocationConfidence "" = low
  /\ (let p := Mapper.fetchGitHubContributors repo login commits user in
      locationConfidence p
      = Mapper.assessLocationConfidence (linkValue (location p)))
  /\ (let p := Mapper.fetchGitHubOrgMembers login user in
      locationConfidence p
      = if truthy (location p)
        then if includes (toLowerCase (linkValue (location p))) "palo alto"
             then high else medium
        else low)
  /\ (let p := GithubReposScraper.fetchOrgContributors repoName login user in
      locationConfidence p
      = if truthy (location p)
        then if includes (toLowerCase (linkValue (location p))) "palo alto"
             then high else medium
        else low).
Proof.
  split; [apply assessLocationConfidence_table |].
  split; [reflexivity |].
  split; [| split].
  - unfold Mapper.fetchGitHubContributors.
    cbn [Types.locationConfidence Types.location].
    set (l := trim (orElse (user_location user) "")).
    unfold orUndefined, linkValue, orElse.
    destruct (truthyStr l) eqn:E; [now rewrite E |].
    unfold truthyStr in E. rewrite negb_false_iff in E.
    apply String.eqb_eq in E. now rewrite E.
  - unfold Mapper.fetchGitHubOrgMembers.
    cbn [Types.locationConfidence Types.location].
    unfold Mapper.paloAltoConfidence, linkValue, orElse, truthy.
    destruct (user_location user) as [l |]; [| reflexivity].
    now destruct (truthyStr l).
  - unfold GithubReposScraper.fetchOrgContributors.
    cbn [Types.locationConfidence Types.location].
    set (l := trim (orElse (user_location user) "")).
    unfold Mapper.paloAltoConfidence, orUndefined, linkValue, orElse, truthy.
    destruct (truthyStr l) eqn:E; [now rewrite E | reflexivity].
Qed.

(** * Further properties of the code *)

(** ** deduplicatePeople: one identity at a time *)

Lemma dedupStep_get_other (seen : Mapper.SeenMap) (p : PublicResearcher) (k : string) :
  Mapper.mergeKey p <> k ->
  Mapper.seen_get k (Mapper.dedupStep seen p) = Mapper.seen_get k seen.
Proof.
  intros Hk. unfold Mapper.dedupStep.
  destruct (Mapper.seen_get (Mapper.mergeKey p) seen); now apply seen_get_set_other.
Qed.

Lemma fold_dedupStep_get (people : list PublicResearcher) (seen : Mapper.SeenMap) (k : string) :
  Mapper.seen_get k (fold_left Mapper.dedupStep people seen)
  = fold_left Mapper.absorb (Mapper.candidatesOf k people) (Mapper.seen_get k seen).
Proof.
  revert seen. induction people as [| p people IH]; intros seen; simpl; [reflexivity |].
  rewrite IH. destruct (Mapper.mergeKey p =? k) eqn:E; simpl.
  - apply String.eqb_eq in E. subst k. now rewrite dedupStep_get.
  - apply String.eqb_neq in E. now rewrite dedupStep_get_other.
Qed.

(** X1: the identity filed under a key is the left fold of the merge over
    the candidates of that key alone; candidates of other keys, wherever
    they arrive in between, do not touch it. *)
Theorem identity_depends_on_own_candidates
  (people : list PublicResearcher) (seen : Mapper.SeenMap) (k : string) :
  Mapper.seen_get k (fold_left Mapper.dedupStep people seen)
  = fold_left Mapper.absorb (Mapper.candidatesOf k people) (Mapper.seen_get k seen)
  /\ (Mapper.candidatesOf k people = [] ->
      Mapper.seen_get k (fold_left Mapper.dedupStep people seen) = Mapper.seen_get k seen).
Proof.
  split; [apply fold_dedupStep_get |].
  intros Hnone. now rewrite fold_dedupStep_get, Hnone.
Qed.

Lemma fold_setAdd_length (l acc : list string) :
  (List.length acc <= List.length (fold_left setAdd l acc)
   <= List.length acc + List.length l)%nat.
Proof.
  revert acc. induction l as [| x l IH]; intros acc; simpl; [lia |].
  specialize (IH (setAdd acc x)). unfold setAdd in *.
  destruct (existsb (String.eqb x) acc); [lia |].
  rewrite length_app in IH. simpl in IH. lia.
Qed.

Lemma fold_absorb_some (g : list PublicResearcher) (e : PublicResearcher) :
  exists m, fold_left Mapper.absorb g (Some e) = Some m.
Proof.
  revert e. induction g as [| p g IH]; intros e; simpl; [eauto | apply IH].
Qed.

(** X2: deduplication loses nobody and invents nobody: every candidate has
    an identity under its merge key in the result, the result is never
    longer than the input, and it is empty only for an empty input. *)
Theorem deduplicatePeople_keeps_everyone (people : list PublicResearcher) :
  (forall p, In p people ->
     exists identity,
       Mapper.seen_get (Mapper.mergeKey p) (Mapper.dedupSeen people) = Some identity
       /\ In identity (Mapper.deduplicatePeople people))
  /\ (List.length (Mapper.deduplicatePeople people) <= List.length people)%nat
  /\ (Mapper.deduplicatePeople people = [] <-> people = []).
Proof.
  assert (Hlen : List.length (Mapper.deduplicatePeople people)
                 = List.length (arrayFromSet (map Mapper.mergeKey people))).
  { unfold Mapper.deduplicatePeople, Mapper.seen_values, Mapper.dedupSeen.
    now rewrite length_map, <- (length_map fst), fold_dedupStep_keys. }
  split; [| split].
  - intros p Hp.
    assert (Hsome : exists m, Mapper.seen_get (Mapper.mergeKey p) (Mapper.dedupSeen people)
                              = Some m).
    { unfold Mapper.dedupSeen. rewrite fold_dedupStep_get. simpl.
      assert (Hin : In p (Mapper.candidatesOf (Mapper.mergeKey p) people)).
      { apply filter_In. split; [exact Hp | apply String.eqb_refl]. }
      destruct (Mapper.candidatesOf (Mapper.mergeKey p) people) as [| q g];
        [destruct Hin |].
      simpl. apply fold_absorb_some. }
    destruct Hsome as [m Hm]. exists m. split; [exact Hm |].
    apply (seen_get_values _ _ _ Hm).
  - rewrite Hlen. unfold arrayFromSet.
    pose proof (fold_setAdd_length (map Mapper.mergeKey people) []) as H.
    rewrite length_map in H. simpl in H. lia.
  - split.
    + intros Hnil. rewrite Hnil in Hlen. simpl in Hlen.
      destruct people as [| p people]; [reflexivity |].
      exfalso. simpl in Hlen. unfold arrayFromSet in Hlen. simpl in Hlen.
      pose proof (fold_setAdd_length (map Mapper.mergeKey people)
                    [Mapper.mergeKey p]) as H.
      change (setAdd [] (Mapper.mergeKey p)) with [Mapper.mergeKey p] in Hlen.
      simpl in H. lia.
    + intros ->. reflexivity.
Qed.

(** ** deduplicatePeople: running it again *)

Lemma orElse_truthy (a : option string) (d : string) :
  orElse a d = if truthy a then linkValue a else d.
Proof.
  unfold orElse, truthy, linkValue, orElse.
  destruct a as [s |]; [| reflexivity]. now destruct (truthyStr s).
Qed.

Lemma truthy_jsOr (a b : option string) : truthy (jsOr a b) = truthy a || truthy b.
Proof. unfold jsOr. destruct (truthy a) eqn:E; [now rewrite E | reflexivity]. Qed.

(** A merged record files under the key of the two records it came from. *)
Lemma mergePerson_mergeKey (existing person : PublicResearcher) (k : string) :
  Mapper.mergeKey existing = k -> Mapper.mergeKey person = k ->
  Mapper.mergeKey (Mapper.mergePerson existing person) = k.
Proof.
  unfold Mapper.mergeKey. simpl.
  rewrite !orElse_truthy, !truthy_jsOr, !linkValue_jsOr.
  destruct (truthy (githubUrl existing)), (truthy (githubUrl person)),
    (truthy (openAlexUrl existing)), (truthy (openAlexUrl person));
    simpl; congruence.
Qed.

Lemma seen_get_In (k : string) (v : PublicResearcher) (seen : Mapper.SeenMap) :
  Mapper.seen_get k seen = Some v -> In (k, v) seen.
Proof.
  induction seen as [| [k' w] rest IH]; simpl; [discriminate |].
  destruct (k' =? k) eqn:E.
  - apply String.eqb_eq in E. intros [= ->]. left. now subst.
  - intros H. right. auto.
Qed.

Lemma seen_set_keyed (k : string) (v : PublicResearcher) (seen : Mapper.SeenMap) :
  Mapper.keyed seen -> Mapper.mergeKey v = k -> Mapper.keyed (Mapper.seen_set k v seen).
Proof.
  unfold Mapper.keyed. intros Hseen Hv.
  induction seen as [| [k' w] rest IH]; simpl.
  - repeat constructor. exact Hv.
  - apply Forall_cons_iff in Hseen. destruct Hseen as [Hw Hrest].
    destruct (k' =? k) eqn:E.
    + apply String.eqb_eq in E. subst k'. constructor; [exact Hv | exact Hrest].
    + constructor; [exact Hw | apply IH, Hrest].
Qed.

Lemma dedupStep_keyed (seen : Mapper.SeenMap) (p : PublicResearcher) :
  Mapper.keyed seen -> Mapper.keyed (Mapper.dedupStep seen p).
Proof.
  intros Hseen. unfold Mapper.dedupStep.
  destruct (Mapper.seen_get (Mapper.mergeKey p) seen) as [e |] eqn:Hget;
    apply seen_set_keyed; try assumption; try reflexivity.
  apply mergePerson_mergeKey; [| reflexivity].
  apply seen_get_In in Hget. unfold Mapper.keyed in Hseen.
  rewrite Forall_forall in Hseen. apply (Hseen _ Hget).
Qed.

Lemma fold_dedupStep_keyed (people : list PublicResearcher) (seen : Mapper.SeenMap) :
  Mapper.keyed seen -> Mapper.keyed (fold_left Mapper.dedupStep people seen).
Proof.
  revert seen. induction people as [| p people IH]; intros seen H; simpl;
    [exact H | apply IH, dedupStep_keyed, H].
Qed.

Lemma seen_get_absent (k : string) (seen : Mapper.SeenMap) :
  ~ In k (map fst seen) -> Mapper.seen_get k seen = None.
Proof.
  induction seen as [| [k' w] rest IH]; simpl; [reflexivity |].
  intros H. destruct (k' =? k) eqn:E.
  - apply String.eqb_eq in E. tauto.
  - apply IH. tauto.
Qed.

Lemma seen_set_absent (k : string) (v : PublicResearcher) (seen : Mapper.SeenMap) :
  ~ In k (map fst seen) -> Mapper.seen_set k v seen = (seen ++ [(k, v)])%list.
Proof.
  induction seen as [| [k' w] rest IH]; simpl; [reflexivity |].
  intros H. destruct (k' =? k) eqn:E.
  - apply String.eqb_eq in E. tauto.
  - rewrite IH; tauto.
Qed.

(** Feeding the values of a keyed map without repeated keys back into the
    loop rebuilds the map. *)
Lemma fold_dedupStep_rebuild (done rest : Mapper.SeenMap) :
  NoDup (map fst (done ++ rest)) -> Mapper.keyed rest ->
  fold_left Mapper.dedupStep (map snd rest) done = (done ++ rest)%list.
Proof.
  revert done. induction rest as [| [k v] rest IH]; intros done Hnd Hkeyed; simpl.
  - now rewrite app_nil_r.
  - apply Forall_cons_iff in Hkeyed. destruct Hkeyed as [Hv Hrest]. simpl in Hv.
    assert (Hfresh : ~ In k (map fst done)).
    { rewrite map_app in Hnd. simpl in Hnd. apply NoDup_remove_2 in Hnd.
      intros Hin. apply Hnd, in_or_app. now left. }
    unfold Mapper.dedupStep at 2. rewrite Hv, (seen_get_absent _ _ Hfresh),
      (seen_set_absent _ _ _ Hfresh).
    rewrite IH; [now rewrite <- app_assoc | now rewrite <- app_assoc | exact Hrest].
Qed.

(** X3: [deduplicatePeople] is idempotent: every identity it returns sits
    under its own merge key and no two share one, so a second pass (a second
    export) merges nothing and returns the same list. *)
Theorem deduplicatePeople_idempotent (people : list PublicResearcher) :
  Mapper.deduplicatePeople (Mapper.deduplicatePeople people)
  = Mapper.deduplicatePeople people
  /\ NoDup (map Mapper.mergeKey (Mapper.deduplicatePeople people)).
Proof.
  assert (Hkeyed : Mapper.keyed (Mapper.dedupSeen people))
    by (apply fold_dedupStep_keyed; constructor).
  assert (Hnd : NoDup (map fst (Mapper.dedupSeen people))).
  { unfold Mapper.dedupSeen. rewrite fold_dedupStep_keys. apply arrayFromSet_NoDup. }
  assert (Hkeys : map Mapper.mergeKey (Mapper.deduplicatePeople people)
                  = map fst (Mapper.dedupSeen people)).
  { unfold Mapper.deduplicatePeople, Mapper.seen_values. rewrite map_map.
    apply map_ext_in. intros kv Hin. unfold Mapper.keyed in Hkeyed.
    rewrite Forall_forall in Hkeyed. apply (Hkeyed _ Hin). }
  split; [| now rewrite Hkeys].
  unfold Mapper.deduplicatePeople at 1. unfold Mapper.dedupSeen at 1.
  unfold Mapper.deduplicatePeople, Mapper.seen_values.
  now rewrite (fold_dedupStep_rebuild [] (Mapper.dedupSeen people) Hnd Hkeyed).
Qed.

(** ** deduplicatePeople: what an identity accumulates *)

Lemma confRank_mergePerson (e p : PublicResearcher) :
  Mapper.confRank (locationConfidence (Mapper.mergePerson e p))
  = Z.max (Mapper.confRank (locationConfidence e)) (Mapper.confRank (locationConfidence p)).
Proof. simpl. now destruct (locationConfidence e), (locationConfidence p). Qed.

Lemma fold_absorb_aggregate (g : list PublicResearcher) (e : PublicResearcher) :
  exists m,
    fold_left Mapper.absorb g (Some e) = Some m
    /\ name m = name e
    /\ Types.isResearchLike m = Types.isResearchLike e || existsb Types.isResearchLike g
    /\ (Mapper.confRank (locationConfidence e) <= Mapper.confRank (locationConfidence m))%Z
    /\ (forall q, In q g ->
          (Mapper.confRank (locationConfidence q)
           <= Mapper.confRank (locationConfidence m))%Z)
    /\ (locationConfidence m = locationConfidence e
        \/ exists q, In q g /\ locationConfidence m = locationConfidence q)
    /\ (forall x, In x (otherSources m)
                  <-> In x (otherSources e) \/ exists q, In q g /\ In x (otherSources q))
    /\ (Mapper.hasLocation e = true -> location m = location e)
    /\ (Mapper.hasLocation e = false ->
        forall q, find Mapper.hasLocation g = Some q -> location m = location q).
Proof.
  revert e. induction g as [| p g IH]; intros e.
  - exists e. simpl. rewrite orb_false_r.
    repeat split; try tauto; try lia; try discriminate.
    intros [H | (q & [] & _)]. exact H.
  - simpl. destruct (IH (Mapper.mergePerson e p))
      as (m & Hm & Hname & Hflag & Hlo & Hall & Hsome & Hsrc & Hloc1 & Hloc2).
    exists m. rewrite confRank_mergePerson in Hlo.
    split; [exact Hm |]. split; [exact Hname |].
    split; [rewrite Hflag; simpl; now rewrite orb_assoc |].
    split; [lia |].
    split; [intros q [<- | Hq]; [lia | now apply Hall] |].
    split.
    { destruct Hsome as [Hsome | (q & Hq & Hsome)].
      - rewrite Hsome. simpl.
        destruct (Mapper.confRank (locationConfidence p)
                  >? Mapper.confRank (locationConfidence e))%Z;
          [right; exists p; split; [now left | reflexivity] | now left].
      - right. exists q. split; [now right | exact Hsome]. }
    split.
    { intros x. rewrite Hsrc. simpl. rewrite arrayFromSet_In, in_app_iff. split.
      - intros [[H | H] | (q & Hq & H)]; [now left | right; exists p | right; exists q];
          (split; [tauto | exact H]).
      - intros [H | (q & [<- | Hq] & H)]; [tauto | tauto | right; exists q; tauto]. }
    unfold Mapper.hasLocation in *. simpl in Hloc1, Hloc2.
    rewrite truthy_jsOr in Hloc1, Hloc2. unfold jsOr in Hloc1, Hloc2.
    split.
    + intros He. rewrite He in *. now apply Hloc1.
    + intros He q. rewrite He in *. simpl in *.
      destruct (truthy (location p)) eqn:Hp.
      * intros [= <-]. now apply Hloc1.
      * now apply Hloc2.
Qed.

(** X4: the identity filed under a key keeps the name of the first candidate
    of that key, is research-like exactly when one of its candidates is,
    holds the highest location tier among them, the location of the first
    candidate that has one, and as sources exactly the sources of its
    candidates. *)
Theorem identity_aggregates
  (people : list PublicResearcher) (k : string)
  (first : PublicResearcher) (others : list PublicResearcher) :
  Mapper.candidatesOf k people = first :: others ->
  exists identity,
    Mapper.seen_get k (Mapper.dedupSeen people) = Some identity
    /\ name identity = name first
    /\ Types.isResearchLike identity = existsb Types.isResearchLike (first :: others)
    /\ (forall q, In q (first :: others) ->
          (Mapper.confRank (locationConfidence q)
           <= Mapper.confRank (locationConfidence identity))%Z)
    /\ (exists q, In q (first :: others)
                  /\ locationConfidence identity = locationConfidence q)
    /\ (forall x, In x (otherSources identity)
                  <-> exists q, In q (first :: others) /\ In x (otherSources q))
    /\ (forall q, find Mapper.hasLocation (first :: others) = Some q ->
                  location identity = location q).
Proof.
  intros Hgroup. unfold Mapper.dedupSeen.
  rewrite fold_dedupStep_get, Hgroup. simpl.
  destruct (fold_absorb_aggregate others first)
    as (m & Hm & Hname & Hflag & Hlo & Hall & Hsome & Hsrc & Hloc1 & Hloc2).
  exists m. split; [exact Hm |]. split; [exact Hname |]. split; [exact Hflag |].
  split; [intros q [<- | Hq]; [exact Hlo | now apply Hall] |].
  split.
  { destruct Hsome as [Hsome | (q & Hq & Hsome)];
      [exists first; split; [now left | exact Hsome]
      | exists q; split; [now right | exact Hsome]]. }
  split.
  { intros x. rewrite Hsrc. split.
    - intros [H | (q & Hq & H)]; [exists first | exists q]; (split; [tauto | exact H]).
    - intros (q & [<- | Hq] & H); [now left | right; exists q; tauto]. }
  intros q. destruct (Mapper.hasLocation first) eqn:Hfirst.
  - intros [= <-]. now apply Hloc1.
  - now apply Hloc2.
Qed.

Lemma identity_aggregates_witness :
  exists identity,
    Mapper.seen_get "https://github.com/alice"
      (Mapper.dedupSeen [Examples.alice; Examples.bob; Examples.aliceMoved]) = Some identity
    /\ name identity = name Examples.alice
    /\ Types.isResearchLike identity
       = existsb Types.isResearchLike [Examples.alice; Examples.aliceMoved]
    /\ (forall q, In q [Examples.alice; Examples.aliceMoved] ->
          (Mapper.confRank (locationConfidence q)
           <= Mapper.confRank (locationConfidence identity))%Z)
    /\ (exists q, In q [Examples.alice; Examples.aliceMoved]
                  /\ locationConfidence identity = locationConfidence q)
    /\ (forall x, In x (otherSources identity)
                  <-> exists q, In q [Examples.alice; Examples.aliceMoved]
                                /\ In x (otherSources q))
    /\ (forall q, find Mapper.hasLocation [Examples.alice; Examples.aliceMoved] = Some q ->
                  location identity = location q).
Proof.
  apply (identity_aggregates
           [Examples.alice; Examples.bob; Examples.aliceMoved]
           "https://github.com/alice" Examples.alice [Examples.aliceMoved]).
  reflexivity.
Defined.

(** ** deduplicatePeople: how the score grows *)







(** ** deduplicatePeople: sources stay duplicate-free *)

Section DedupInvariant.

Variable P : PublicResearcher -> Prop.
Hypothesis P_merge : forall e p, P e -> P p -> P (Mapper.mergePerson e p).

Lemma dedupStep_Forall (seen : Mapper.SeenMap) (p : PublicResearcher) :
  Forall P (Mapper.seen_values seen) -> P p ->
  Forall P (Mapper.seen_values (Mapper.dedupStep seen p)).
Proof.
  intros Hseen Hp. rewrite Forall_forall in *. intros x Hx.
  unfold Mapper.dedupStep in Hx.
  destruct (Mapper.seen_get (Mapper.mergeKey p) seen) as [existing |] eqn:Hget;
    apply seen_set_values in Hx; destruct Hx as [-> | Hx]; auto.
  apply P_merge; [| exact Hp]. apply Hseen, (seen_get_values _ _ _ Hget).
Qed.

Lemma fold_dedupStep_Forall (people : list PublicResearcher) (seen : Mapper.SeenMap) :
  Forall P (Mapper.seen_values seen) -> Forall P people ->
  Forall P (Mapper.seen_values (fold_left Mapper.dedupStep people seen)).
Proof.
  revert seen. induction people as [| p people IH]; intros seen Hseen Hall; simpl.
  - exact Hseen.
  - apply Forall_cons_iff in Hall. destruct Hall as [Hp Hall].
    apply IH; [apply dedupStep_Forall |]; assumption.
Qed.

End DedupInvariant.

(** X6: [otherSources] is kept as a set: when no candidate lists a source
    twice, no identity does, and an identity made of two or more candidates
    never does, whatever its candidates list. *)
Theorem deduplicatePeople_sources_distinct
  (people : list PublicResearcher) (k : string)
  (first second : PublicResearcher) (others : list PublicResearcher) :
  (Forall (fun p => NoDup (otherSources p)) people ->
   Forall (fun p => NoDup (otherSources p)) (Mapper.deduplicatePeople people))
  /\ (Mapper.candidatesOf k people = first :: second :: others ->
      exists identity,
        Mapper.seen_get k (Mapper.dedupSeen people) = Some identity
        /\ NoDup (otherSources identity)).
Proof.
  split.
  - intros Hall. apply fold_dedupStep_Forall; [| constructor | exact Hall].
    intros e p _ _. apply arrayFromSet_NoDup.
  - intros Hgroup. unfold Mapper.dedupSeen.
    rewrite fold_dedupStep_get, Hgroup. simpl.
    assert (H : forall g e, NoDup (otherSources e) ->
                exists m, fold_left Mapper.absorb g (Some e) = Some m
                          /\ NoDup (otherSources m)).
    { induction g as [| p g IH]; intros e He; simpl; [eauto |].
      apply IH. apply arrayFromSet_NoDup. }
    apply H. apply arrayFromSet_NoDup.
Qed.

(** ** exportResults: where the summary goes *)

Lemma append_length (a b : string) :
  String.length (a ++ b) = (String.length a + String.length b)%nat.
Proof. induction a as [| c a IH]; simpl; [reflexivity | now rewrite IH]. Qed.

Lemma prefix_drop_length (pat s : string) :
  String.prefix pat s = true ->
  (String.length (drop (String.length pat) s) + String.length pat = String.length s)%nat.
Proof.
  revert s. induction pat as [| c pat IH]; intros s; simpl.
  - destruct s; simpl; lia.
  - destruct s as [| d s]; [discriminate |]. simpl.
    destruct (ascii_dec c d); [| discriminate].
    intros H. apply IH in H. lia.
Qed.

(** A pattern without the character [sep] that is no prefix of [stem] is no
    prefix of [stem] followed by [sep] and more. *)
Lemma prefix_before_separator (q stem t : string) (sep : ascii) :
  ~ In sep (list_ascii_of_string q) ->
  String.prefix q stem = false ->
  String.prefix q (stem ++ String sep t) = false.
Proof.
  revert stem. induction q as [| a q IH]; intros stem Hsep.
  - destruct stem; discriminate.
  - destruct stem as [| d stem]; cbn [String.prefix append].
    + intros _. destruct (ascii_dec a sep) as [-> | _]; [| reflexivity].
      exfalso. apply Hsep. now left.
    + destruct (ascii_dec a d); [| reflexivity].
      apply IH. intros Hin. apply Hsep. now right.
Qed.

Lemma replaceFirst_absent (pat rep s : string) :
  includes s pat = false -> replaceFirst pat rep s = s.
Proof.
  induction s as [| c s IH]; cbn [includes replaceFirst].
  - destruct (String.prefix pat ""); [discriminate | reflexivity].
  - destruct (String.prefix pat (String c s)); [discriminate |].
    cbn [orb]. intros H. now rewrite IH.
Qed.

Lemma replaceFirst_length (pat rep s : string) :
  includes s pat = true ->
  (String.length (replaceFirst pat rep s) + String.length pat
   = String.length s + String.length rep)%nat.
Proof.
  induction s as [| c s IH].
  - cbn [includes replaceFirst].
    destruct (String.prefix pat "") eqn:E; [| discriminate].
    intros _. rewrite append_length.
    pose proof (prefix_drop_length pat "" E). simpl in *. lia.
  - intros H. cbn [replaceFirst]. cbn [includes] in H.
    destruct (String.prefix pat (String c s)) eqn:E.
    + rewrite append_length.
      pose proof (prefix_drop_length pat (String c s) E). lia.
    + cbn [orb] in H. apply IH in H. cbn [String.length]. lia.
Qed.

Lemma replaceFirst_same_iff (pat rep s : string) :
  String.length pat <> String.length rep ->
  (replaceFirst pat rep s = s <-> includes s pat = false).
Proof.
  intros Hlen. split.
  - intros Hsame. destruct (includes s pat) eqn:E; [| reflexivity].
    apply (replaceFirst_length pat rep) in E. rewrite Hsame in E. lia.
  - apply replaceFirst_absent.
Qed.

(** X7: the summary of [exportResults] goes to the very path of the CSV,
    written just before it, exactly when the file name contains no ".csv";
    otherwise the first ".csv" becomes "_summary.txt" and the path is eight
    characters longer. The dinner list of the researcher scraper collides
    with its CSV under the same condition. *)
Theorem summaryFile_collides_iff_no_csv (filename : string) :
  (Mapper.summaryFile filename = filename <-> includes filename ".csv" = false)
  /\ (includes filename ".csv" = true ->
      String.length (Mapper.summaryFile filename) = (String.length filename + 8)%nat)
  /\ (forall stem, includes stem ".csv" = false ->
      Mapper.summaryFile (stem ++ ".csv") = stem ++ "_summary.txt")
  /\ (ResearcherFocusedScraper.dinnerListFile filename = filename
      <-> includes filename ".csv" = false).
Proof.
  rewrite <- !and_assoc. split;
    [rewrite !and_assoc
    | unfold ResearcherFocusedScraper.dinnerListFile;
      apply replaceFirst_same_iff; simpl; lia].
  unfold Mapper.summaryFile. split; [| split].
  - apply replaceFirst_same_iff. simpl. lia.
  - intros H. apply (replaceFirst_length ".csv" "_summary.txt") in H. simpl in H. lia.
  - intros stem. induction stem as [| c stem IH]; [reflexivity |].
    intros H. cbn [includes] in H. apply orb_false_iff in H. destruct H as [Hp Hrest].
    cbn [append replaceFirst].
    assert (Hp' : String.prefix ".csv" (String c (stem ++ ".csv")) = false).
    { revert Hp. cbn [String.prefix]. destruct (ascii_dec "." c); [| reflexivity].
      apply prefix_before_separator. simpl. intuition discriminate. }
    rewrite Hp'. now rewrite IH.
Qed.

(** ** Maps in insertion order *)

Section MapFacts.

Context {V : Type}.
Implicit Types (m : list (string * V)) (k : string) (v : V).

Lemma mapGet_set_same k v m : mapGet k (mapSet k v m) = Some v.
Proof.
  induction m as [| [k' w] rest IH]; simpl.
  - now rewrite String.eqb_refl.
  - destruct (k' =? k) eqn:E; simpl; rewrite E; [reflexivity | exact IH].
Qed.

Lemma mapGet_set_other k k' v m :
  k <> k' -> mapGet k' (mapSet k v m) = mapGet k' m.
Proof.
  intros Hne. induction m as [| [k0 w] rest IH]; simpl.
  - destruct (k =? k') eqn:E; [apply String.eqb_eq in E; contradiction | reflexivity].
  - destruct (k0 =? k) eqn:E; simpl.
    + apply String.eqb_eq in E; subst k0.
      destruct (k =? k') eqn:E'; [apply String.eqb_eq in E'; contradiction | reflexivity].
    + destruct (k0 =? k'); [reflexivity | exact IH].
Qed.

Lemma mapGet_In k v m : mapGet k m = Some v -> In (k, v) m.
Proof.
  induction m as [| [k' w] rest IH]; simpl; [discriminate |].
  destruct (k' =? k) eqn:E.
  - apply String.eqb_eq in E. intros [= ->]. left. now subst.
  - intros H. right. auto.
Qed.

Lemma mapGet_absent k m : ~ In k (map fst m) -> mapGet k m = None.
Proof.
  induction m as [| [k' w] rest IH]; simpl; [reflexivity |].
  intros H. destruct (k' =? k) eqn:E.
  - apply String.eqb_eq in E. tauto.
  - apply IH. tauto.
Qed.

Lemma mapSet_absent k v m :
  ~ In k (map fst m) -> mapSet k v m = (m ++ [(k, v)])%list.
Proof.
  induction m as [| [k' w] rest IH]; simpl; [reflexivity |].
  intros H. destruct (k' =? k) eqn:E.
  - apply String.eqb_eq in E. tauto.
  - rewrite IH; tauto.
Qed.

Lemma mapSet_keys k v m : map fst (mapSet k v m) = setAdd (map fst m) k.
Proof.
  unfold setAdd. induction m as [| [k' w] rest IH]; simpl; [reflexivity |].
  rewrite (String.eqb_sym k k').
  destruct (k' =? k); simpl; [reflexivity |].
  rewrite IH. now destruct (existsb (String.eqb k) (map fst rest)).
Qed.

Lemma mapSet_In k v m (x : string * V) :
  In x (mapSet k v m) -> x = (k, v) \/ In x m.
Proof.
  induction m as [| [k' w] rest IH]; simpl.
  - intuition.
  - destruct (k' =? k) eqn:E; simpl.
    + apply String.eqb_eq in E. subst k'. intuition.
    + intuition.
Qed.

End MapFacts.

(** ** deduplicateResearchers *)

Lemma researcher_dedupStep_get
  (seen : list (string * ResearcherFocusedScraper.Researcher))
  (r : ResearcherFocusedScraper.Researcher) (k : string) :
  mapGet k (ResearcherFocusedScraper.dedupStep seen r)
  = if ResearcherFocusedScraper.nameKey r =? k
    then ResearcherFocusedScraper.prefer (mapGet k seen) r
    else mapGet k seen.
Proof.
  unfold ResearcherFocusedScraper.dedupStep, ResearcherFocusedScraper.prefer.
  destruct (ResearcherFocusedScraper.nameKey r =? k) eqn:E.
  - apply String.eqb_eq in E. subst k.
    destruct (mapGet (ResearcherFocusedScraper.nameKey r) seen) as [e |] eqn:Hget.
    + destruct (_ && _); [apply mapGet_set_same | exact Hget].
    + apply mapGet_set_same.
  - apply String.eqb_neq in E.
    destruct (mapGet (ResearcherFocusedScraper.nameKey r) seen) as [e |].
    + destruct (_ && _); [now apply mapGet_set_other | reflexivity].
    + now apply mapGet_set_other.
Qed.

Lemma researcher_fold_get
  (l : list ResearcherFocusedScraper.Researcher)
  (seen : list (string * ResearcherFocusedScraper.Researcher)) (k : string) :
  mapGet k (fold_left ResearcherFocusedScraper.dedupStep l seen)
  = fold_left ResearcherFocusedScraper.prefer
      (ResearcherFocusedScraper.namesakes k l) (mapGet k seen).
Proof.
  revert seen. induction l as [| r l IH]; intros seen; simpl; [reflexivity |].
  rewrite IH, researcher_dedupStep_get.
  now destruct (ResearcherFocusedScraper.nameKey r =? k).
Qed.

Lemma fold_prefer (g : list ResearcherFocusedScraper.Researcher)
  (e : ResearcherFocusedScraper.Researcher) :
  fold_left ResearcherFocusedScraper.prefer g (Some e)
  = Some (if ResearcherFocusedScraper.highConfidence e then e
          else match find ResearcherFocusedScraper.highConfidence g with
               | Some h => h
               | None => e
               end).
Proof.
  revert e. induction g as [| r g IH]; intros e; cbn [fold_left find].
  - now destruct (ResearcherFocusedScraper.highConfidence e).
  - change (ResearcherFocusedScraper.prefer (Some e) r)
      with (Some (if ResearcherFocusedScraper.highConfidence r
                     && negb (ResearcherFocusedScraper.highConfidence e)
                  then r else e)).
    rewrite IH.
    destruct (ResearcherFocusedScraper.highConfidence e) eqn:He;
      destruct (ResearcherFocusedScraper.highConfidence r) eqn:Hr;
      cbn [andb negb]; rewrite ?He, ?Hr; reflexivity.
Qed.

Lemma researcher_dedupStep_keys
  (seen : list (string * ResearcherFocusedScraper.Researcher))
  (r : ResearcherFocusedScraper.Researcher) :
  map fst (ResearcherFocusedScraper.dedupStep seen r)
  = setAdd (map fst seen) (ResearcherFocusedScraper.nameKey r).
Proof.
  unfold ResearcherFocusedScraper.dedupStep.
  destruct (mapGet (ResearcherFocusedScraper.nameKey r) seen) as [e |] eqn:Hget;
    [| apply mapSet_keys].
  destruct (_ && _); [apply mapSet_keys |].
  unfold setAdd. apply mapGet_In in Hget.
  apply (in_map fst) in Hget. simpl in Hget.
  now rewrite (proj2 (existsb_eqb_In _ _) Hget).
Qed.

Lemma researcher_fold_keys
  (l : list ResearcherFocusedScraper.Researcher)
  (seen : list (string * ResearcherFocusedScraper.Researcher)) :
  map fst (fold_left ResearcherFocusedScraper.dedupStep l seen)
  = fold_left setAdd (map ResearcherFocusedScraper.nameKey l) (map fst seen).
Proof.
  revert seen. induction l as [| r l IH]; intros seen; simpl; [reflexivity |].
  now rewrite IH, researcher_dedupStep_keys.
Qed.

(** Every entry is a researcher of the input, filed under its own name key. *)
Lemma researcher_fold_entries
  (P : ResearcherFocusedScraper.Researcher -> Prop)
  (l : list ResearcherFocusedScraper.Researcher)
  (seen : list (string * ResearcherFocusedScraper.Researcher)) :
  Forall (fun kv => ResearcherFocusedScraper.nameKey (snd kv) = fst kv /\ P (snd kv)) seen ->
  Forall P l ->
  Forall (fun kv => ResearcherFocusedScraper.nameKey (snd kv) = fst kv /\ P (snd kv))
    (fold_left ResearcherFocusedScraper.dedupStep l seen).
Proof.
  revert seen. induction l as [| r l IH]; intros seen Hseen Hl; simpl; [exact Hseen |].
  apply Forall_cons_iff in Hl. destruct Hl as [Hr Hl].
  apply IH; [| exact Hl].
  assert (Hset : Forall (fun kv => ResearcherFocusedScraper.nameKey (snd kv) = fst kv
                                   /\ P (snd kv))
                   (mapSet (ResearcherFocusedScraper.nameKey r) r seen)).
  { rewrite Forall_forall in *. intros x Hx.
    apply mapSet_In in Hx. destruct Hx as [-> | Hx]; [now split | now apply Hseen]. }
  unfold ResearcherFocusedScraper.dedupStep.
  destruct (mapGet (ResearcherFocusedScraper.nameKey r) seen); [| exact Hset].
  destruct (_ && _); [exact Hset | exact Hseen].
Qed.

Lemma researcher_fold_rebuild
  (done rest : list (string * ResearcherFocusedScraper.Researcher)) :
  NoDup (map fst (done ++ rest)) ->
  Forall (fun kv => ResearcherFocusedScraper.nameKey (snd kv) = fst kv) rest ->
  fold_left ResearcherFocusedScraper.dedupStep (map snd rest) done = (done ++ rest)%list.
Proof.
  revert done. induction rest as [| [k v] rest IH]; intros done Hnd Hkeyed; simpl.
  - now rewrite app_nil_r.
  - apply Forall_cons_iff in Hkeyed. destruct Hkeyed as [Hv Hrest]. simpl in Hv.
    assert (Hfresh : ~ In k (map fst done)).
    { rewrite map_app in Hnd. simpl in Hnd. apply NoDup_remove_2 in Hnd.
      intros Hin. apply Hnd, in_or_app. now left. }
    unfold ResearcherFocusedScraper.dedupStep at 2.
    rewrite Hv, (mapGet_absent _ _ Hfresh), (mapSet_absent _ _ _ Hfresh).
    rewrite IH; [now rewrite <- app_assoc | now rewrite <- app_assoc | exact Hrest].
Qed.

(** X8: among the researchers that share a name key, [deduplicateResearchers]
    keeps the first one of high confidence, and the first one of all when
    none is of high confidence. *)
Theorem deduplicateResearchers_keeps_first_high
  (researchers : list ResearcherFocusedScraper.Researcher) (k : string)
  (first : ResearcherFocusedScraper.Researcher)
  (others : list ResearcherFocusedScraper.Researcher) :
  ResearcherFocusedScraper.namesakes k researchers = first :: others ->
  exists kept,
    mapGet k (fold_left ResearcherFocusedScraper.dedupStep researchers []) = Some kept
    /\ In kept (ResearcherFocusedScraper.deduplicateResearchers researchers)
    /\ kept = match find ResearcherFocusedScraper.highConfidence (first :: others) with
              | Some h => h
              | None => first
              end.
Proof.
  intros Hgroup.
  assert (Hget : mapGet k (fold_left ResearcherFocusedScraper.dedupStep researchers [])
                 = Some (match find ResearcherFocusedScraper.highConfidence (first :: others)
                         with Some h => h | None => first end)).
  { rewrite researcher_fold_get, Hgroup. cbn [fold_left mapGet find].
    change (ResearcherFocusedScraper.prefer None first) with (Some first).
    rewrite fold_prefer. now destruct (ResearcherFocusedScraper.highConfidence first). }
  eexists. split; [exact Hget |]. split; [| reflexivity].
  apply mapGet_In in Hget. unfold ResearcherFocusedScraper.deduplicateResearchers.
  apply (in_map snd) in Hget. exact Hget.
Qed.

Lemma deduplicateResearchers_keeps_first_high_witness :
  let jane c loc :=
    ResearcherFocusedScraper.mkResearcher "Jane Doe" None loc None None None
      "Twitter/X" "https://twitter.com/jane" c None in
  exists kept,
    mapGet "jane doe"
      (fold_left ResearcherFocusedScraper.dedupStep
         [jane medium None; jane high (Some "Berlin"); jane high None] []) = Some kept
    /\ In kept (ResearcherFocusedScraper.deduplicateResearchers
                  [jane medium None; jane high (Some "Berlin"); jane high None])
    /\ kept = match find ResearcherFocusedScraper.highConfidence
                      [jane medium None; jane high (Some "Berlin"); jane high None] with
              | Some h => h
              | None => jane medium None
              end.
Proof.
  intros jane.
  apply (deduplicateResearchers_keeps_first_high
           [jane medium None; jane high (Some "Berlin"); jane high None]
           "jane doe" (jane medium None) [jane high (Some "Berlin"); jane high None]).
  reflexivity.
Defined.

(** X9: [deduplicateResearchers] only selects: every researcher it returns
    is one of the input, no two of them share a name key, every name key of
    the input is still there, and running it again changes nothing. *)
Theorem deduplicateResearchers_selects
  (researchers : list ResearcherFocusedScraper.Researcher) :
  (forall r, In r (ResearcherFocusedScraper.deduplicateResearchers researchers) ->
             In r researchers)
  /\ NoDup (map ResearcherFocusedScraper.nameKey
              (ResearcherFocusedScraper.deduplicateResearchers researchers))
  /\ (forall r, In r researchers ->
        exists r', In r' (ResearcherFocusedScraper.deduplicateResearchers researchers)
                   /\ ResearcherFocusedScraper.nameKey r' = ResearcherFocusedScraper.nameKey r)
  /\ ResearcherFocusedScraper.deduplicateResearchers
       (ResearcherFocusedScraper.deduplicateResearchers researchers)
     = ResearcherFocusedScraper.deduplicateResearchers researchers.
Proof.
  set (seen := fold_left ResearcherFocusedScraper.dedupStep researchers []).
  assert (Hentries : Forall (fun kv => ResearcherFocusedScraper.nameKey (snd kv) = fst kv
                                       /\ In (snd kv) researchers) seen).
  { apply (researcher_fold_entries (fun r => In r researchers)); [constructor |].
    now apply Forall_forall. }
  assert (Hnd : NoDup (map fst seen)).
  { unfold seen. rewrite researcher_fold_keys. apply fold_setAdd_NoDup. constructor. }
  assert (Hkeys : map ResearcherFocusedScraper.nameKey
                    (ResearcherFocusedScraper.deduplicateResearchers researchers)
                  = map fst seen).
  { unfold ResearcherFocusedScraper.deduplicateResearchers. fold seen. rewrite map_map.
    apply map_ext_in. intros kv Hin.
    rewrite Forall_forall in Hentries. apply (Hentries _ Hin). }
  split; [| split; [| split]].
  - intros r Hr. unfold ResearcherFocusedScraper.deduplicateResearchers in Hr. fold seen in Hr.
    apply in_map_iff in Hr. destruct Hr as (kv & <- & Hkv).
    rewrite Forall_forall in Hentries. apply (Hentries _ Hkv).
  - now rewrite Hkeys.
  - intros r Hr.
    assert (Hin : In (ResearcherFocusedScraper.nameKey r) (map fst seen)).
    { unfold seen. rewrite researcher_fold_keys. apply fold_setAdd_In. right.
      now apply in_map. }
    rewrite <- Hkeys in Hin. apply in_map_iff in Hin.
    destruct Hin as (r' & Hkey & Hr'). now exists r'.
  - unfold ResearcherFocusedScraper.deduplicateResearchers at 1. fold seen.
    unfold ResearcherFocusedScraper.deduplicateResearchers. fold seen.
    rewrite (researcher_fold_rebuild [] seen Hnd); [reflexivity |].
    eapply Forall_impl; [| exact Hentries]. now intros kv [H _].
Qed.

(** ** getStats *)

Lemma filter_length_le {A : Type} (f : A -> bool) (l : list A) :
  (List.length (filter f l) <= List.length l)%nat.
Proof.
  induction l as [| x l IH]; simpl; [lia |].
  destruct (f x); simpl; lia.
Qed.

(** X10: the three confidence counts of [getStats] add up to the total, and
    neither the Palo Alto count nor the GitHub count exceeds it. *)
Theorem getStats_counts (researchers : list ResearcherFocusedScraper.Researcher) :
  let stats := ResearcherFocusedScraper.getStats researchers in
  (ResearcherFocusedScraper.byHigh stats + ResearcherFocusedScraper.byMedium stats
   + ResearcherFocusedScraper.byLow stats = ResearcherFocusedScraper.total stats)%nat
  /\ (ResearcherFocusedScraper.paloAlto stats <= ResearcherFocusedScraper.total stats)%nat
  /\ (ResearcherFocusedScraper.withGitHub stats <= ResearcherFocusedScraper.total stats)%nat.
Proof.
  cbn zeta. unfold ResearcherFocusedScraper.getStats. cbn [ResearcherFocusedScraper.byHigh
    ResearcherFocusedScraper.byMedium ResearcherFocusedScraper.byLow
    ResearcherFocusedScraper.total ResearcherFocusedScraper.paloAlto
    ResearcherFocusedScraper.withGitHub].
  split; [| split; apply filter_length_le].
  induction researchers as [| r l IH]; [reflexivity |].
  cbn [filter List.length].
  destruct (ResearcherFocusedScraper.confidence r); cbn; lia.
Qed.

(** ** searchTwitterForXAIResearchers: one researcher per Twitter user *)

Lemma hasTwitterUsername_In (u : string) (rs : list ResearcherFocusedScraper.Researcher) :
  existsb (ResearcherFocusedScraper.hasTwitterUsername u) rs = true
  <-> In u (ResearcherFocusedScraper.twitterUsernames rs).
Proof.
  induction rs as [| r rs IH]; simpl; [split; [discriminate | tauto] |].
  unfold ResearcherFocusedScraper.hasTwitterUsername at 1.
  destruct (ResearcherFocusedScraper.twitterUsername r) as [v |]; simpl.
  - rewrite orb_true_iff, IH, String.eqb_eq. tauto.
  - exact IH.
Qed.

Lemma twitterUsernames_app (rs1 rs2 : list ResearcherFocusedScraper.Researcher) :
  ResearcherFocusedScraper.twitterUsernames (rs1 ++ rs2)
  = (ResearcherFocusedScraper.twitterUsernames rs1
     ++ ResearcherFocusedScraper.twitterUsernames rs2)%list.
Proof.
  induction rs1 as [| r rs1 IH]; simpl; [reflexivity |].
  destruct (ResearcherFocusedScraper.twitterUsername r); simpl; now rewrite IH.
Qed.

Lemma pushProfile_usernames
  (rs : list ResearcherFocusedScraper.Researcher)
  (p : ResearcherFocusedScraper.TwitterProfile) :
  ResearcherFocusedScraper.twitterUsernames (ResearcherFocusedScraper.pushProfile rs p)
  = setAdd (ResearcherFocusedScraper.twitterUsernames rs)
      (ResearcherFocusedScraper.profile_username p).
Proof.
  unfold ResearcherFocusedScraper.pushProfile, setAdd.
  destruct (existsb (ResearcherFocusedScraper.hasTwitterUsername _) rs) eqn:E.
  - apply hasTwitterUsername_In in E.
    now rewrite (proj2 (existsb_eqb_In _ _) E).
  - assert (Hnot : existsb (String.eqb (ResearcherFocusedScraper.profile_username p))
                     (ResearcherFocusedScraper.twitterUsernames rs) = false).
    { apply not_true_is_false. intros H. apply existsb_eqb_In, hasTwitterUsername_In in H.
      congruence. }
    rewrite Hnot, twitterUsernames_app. reflexivity.
Qed.

(** X11: pushing the profiles of a Twitter search keeps the researchers
    already found, in place, adds every profile's user name, and never
    gives two researchers the same Twitter user name if no two had one
    before. *)
Theorem pushProfiles_unique_usernames
  (researchers : list ResearcherFocusedScraper.Researcher)
  (profiles : list ResearcherFocusedScraper.TwitterProfile) :
  NoDup (ResearcherFocusedScraper.twitterUsernames researchers) ->
  NoDup (ResearcherFocusedScraper.twitterUsernames
           (ResearcherFocusedScraper.pushProfiles researchers profiles))
  /\ (forall p, In p profiles ->
        In (ResearcherFocusedScraper.profile_username p)
           (ResearcherFocusedScraper.twitterUsernames
              (ResearcherFocusedScraper.pushProfiles researchers profiles)))
  /\ (exists added,
        ResearcherFocusedScraper.pushProfiles researchers profiles
        = (researchers ++ added)%list
        /\ (List.length added <= List.length profiles)%nat).
Proof.
  intros Hnd.
  assert (Hnames : forall ps rs,
            ResearcherFocusedScraper.twitterUsernames
              (ResearcherFocusedScraper.pushProfiles rs ps)
            = fold_left setAdd (map ResearcherFocusedScraper.profile_username ps)
                (ResearcherFocusedScraper.twitterUsernames rs)).
  { induction ps as [| p ps IH]; intros rs; simpl; [reflexivity |].
    unfold ResearcherFocusedScraper.pushProfiles in *. simpl.
    now rewrite IH, pushProfile_usernames. }
  split; [| split].
  - rewrite Hnames. now apply fold_setAdd_NoDup.
  - intros p Hp. rewrite Hnames. apply fold_setAdd_In. right. now apply in_map.
  - clear Hnd Hnames. revert researchers.
    induction profiles as [| p ps IH]; intros rs.
    + exists []. split; [now rewrite app_nil_r | simpl; lia].
    + unfold ResearcherFocusedScraper.pushProfiles in *. simpl.
      destruct (IH (ResearcherFocusedScraper.pushProfile rs p)) as (added & Heq & Hlen).
      rewrite Heq. unfold ResearcherFocusedScraper.pushProfile.
      destruct (existsb _ rs).
      * exists added. split; [reflexivity | simpl; lia].
      * eexists. rewrite <- app_assoc. split; [reflexivity |].
        rewrite length_app. simpl. lia.
Qed.

Lemma pushProfiles_unique_usernames_witness :
  let profiles :=
    [ ResearcherFocusedScraper.mkTwitterProfile "jane" "Jane Doe" "xAI engineer";
      ResearcherFocusedScraper.mkTwitterProfile "jane" "Jane D." "joined xAI" ] in
  NoDup (ResearcherFocusedScraper.twitterUsernames
           (ResearcherFocusedScraper.pushProfiles [] profiles))
  /\ (forall p, In p profiles ->
        In (ResearcherFocusedScraper.profile_username p)
           (ResearcherFocusedScraper.twitterUsernames
              (ResearcherFocusedScraper.pushProfiles [] profiles)))
  /\ (exists added,
        ResearcherFocusedScraper.pushProfiles [] profiles = ([] ++ added)%list
        /\ (List.length added <= List.length profiles)%nat).
Proof.
  intros profiles.
  apply (pushProfiles_unique_usernames [] profiles).
  constructor.
Defined.

(** ** guessEmail *)

Lemma includes_char (c : ascii) (s : string) :
  includes s (String c EmptyString) = false <-> ~ In c (list_ascii_of_string s).
Proof.
  induction s as [| d s IH]; cbn [includes String.prefix list_ascii_of_string In].
  - tauto.
  - destruct (ascii_dec c d) as [-> | Hne].
    + destruct s; simpl; split; intros H; try discriminate; exfalso; apply H; now left.
    + cbn [orb]. rewrite IH. split; [intros H [E | Hin]; [congruence | tauto] | tauto].
Qed.

Lemma toLowerChar_space (c : ascii) :
  toLowerChar c = " "%char <-> c = " "%char.
Proof.
  destruct c as [[] [] [] [] [] [] [] []]; vm_compute; split; congruence.
Qed.

Lemma toLowerCase_app (a b : string) :
  toLowerCase (a ++ b) = toLowerCase a ++ toLowerCase b.
Proof. induction a as [| c a IH]; simpl; [reflexivity | now rewrite IH]. Qed.

Lemma toLowerCase_no_space (s : string) :
  ~ In " "%char (list_ascii_of_string s) ->
  ~ In " "%char (list_ascii_of_string (toLowerCase s)).
Proof.
  induction s as [| c s IH]; simpl; [tauto |].
  intros H [E | Hin].
  - apply H. left. now apply (proj1 (toLowerChar_space c)).
  - revert Hin. apply IH. intros Hin. apply H. now right.
Qed.

Lemma splitOn_nonempty (sep : ascii) (s : string) : splitOn sep s <> [].
Proof.
  induction s as [| c s IH]; simpl; [discriminate |].
  destruct (Ascii.eqb c sep); [discriminate |].
  destruct (splitOn sep s); discriminate.
Qed.

Lemma splitOn_word (sep : ascii) (w : string) :
  ~ In sep (list_ascii_of_string w) -> splitOn sep w = [w].
Proof.
  induction w as [| c w IH]; simpl; [reflexivity |].
  intros H. destruct (Ascii.eqb c sep) eqn:E.
  - apply Ascii.eqb_eq in E. tauto.
  - rewrite IH; tauto.
Qed.

Lemma splitOn_first (sep : ascii) (w rest : string) :
  ~ In sep (list_ascii_of_string w) ->
  splitOn sep (w ++ String sep rest) = w :: splitOn sep rest.
Proof.
  induction w as [| c w IH]; simpl.
  - intros _. now rewrite Ascii.eqb_refl.
  - intros H. destruct (Ascii.eqb c sep) eqn:E.
    + apply Ascii.eqb_eq in E. tauto.
    + rewrite IH; tauto.
Qed.

(** X12: [guessEmail] answers the placeholder "firstname@x.ai" for a name
    without a space; for a name of two or more words separated by single
    spaces it builds both guesses from the first two words, lower-cased,
    and ignores the rest. *)
Theorem guessEmail_uses_first_two_words (name first second more : string) :
  (includes name " " = false ->
   ResearcherFocusedScraper.guessEmail name = "firstname@x.ai")
  /\ (includes first " " = false -> includes second " " = false ->
      ResearcherFocusedScraper.guessEmail (first ++ " " ++ second)
      = toLowerCase first ++ "@x.ai or " ++ toLowerCase first ++ "."
        ++ toLowerCase second ++ "@x.ai"
      /\ ResearcherFocusedScraper.guessEmail (first ++ " " ++ second ++ " " ++ more)
         = ResearcherFocusedScraper.guessEmail (first ++ " " ++ second)).
Proof.
  unfold ResearcherFocusedScraper.guessEmail. split.
  - intros H. apply includes_char, toLowerCase_no_space in H.
    now rewrite (splitOn_word _ _ H).
  - intros H1 H2.
    apply includes_char, toLowerCase_no_space in H1.
    apply includes_char, toLowerCase_no_space in H2.
    rewrite !toLowerCase_app.
    change (toLowerCase " ") with " ".
    change (" " ++ ?x) with (String " " x).
    cbn [append].
    rewrite !(splitOn_first _ _ _ H1), (splitOn_word _ _ H2), (splitOn_first _ _ _ H2).
    split; [reflexivity |].
    destruct (splitOn " " (toLowerCase more)); reflexivity.
Qed.

(** ** fetchOrgContributors: one request per login *)





(** ** fetchGitHubContributors: at most fifty users per repository *)




(** ** fetchPressMentions *)

Example namePattern_matches :
  Mapper.matchAll 0 "Yesterday Jane Doe joined xAI. Elon Musk met Mary Ann Smith Jones"
  = ["Yesterday Jane Doe"; "Elon Musk"; "Mary Ann Smith"].
Proof. reflexivity. Qed.

Example pressPeople_sample :
  map (fun p => (name p, otherSources p)) (Mapper.pressPeople Examples.articles)
  = [("Jane Doe", ["https://news.example/1"; "https://news.example/2"])].
Proof. reflexivity. Qed.

Lemma setAdd_length (acc : list string) (x : string) :
  (1 <= List.length (setAdd acc x) <= S (List.length acc))%nat.
Proof.
  unfold setAdd. destruct (existsb (String.eqb x) acc) eqn:E.
  - apply existsb_eqb_In in E. destruct acc; [destruct E | simpl; lia].
  - rewrite length_app. simpl. lia.
Qed.

Section PressInvariant.

Variable ofArticle : string -> Prop.

Lemma nameStep_ok (text url name : string) (m : list (string * Mapper.Mention)) :
  ofArticle url ->
  Forall (Mapper.mentionOk ofArticle) m ->
  Forall (Mapper.mentionOk ofArticle) (Mapper.nameStep text url m name).
Proof.
  intros Hurl Hm. unfold Mapper.nameStep.
  destruct ((String.length name <? 6)%nat
            || (3 <? List.length (splitOn " " name))%nat) eqn:Hshort; [exact Hm |].
  destruct (existsb _ Mapper.excludePatterns) eqn:Hexcl; [exact Hm |].
  destruct (indexOf (toLowerCase name) (toLowerCase text)) as [nameIndex |]; [| exact Hm].
  destruct (existsb _ Mapper.employeeContexts); [| exact Hm].
  apply orb_false_iff in Hshort. destruct Hshort as [Hlen _].
  apply Nat.ltb_ge in Hlen.
  rewrite Forall_forall in *. intros x Hx. apply mapSet_In in Hx.
  destruct Hx as [-> | Hx]; [| now apply Hm].
  unfold Mapper.mentionOk. cbn [fst snd Mapper.mentions Mapper.sources Mapper.contexts].
  destruct (mapGet name m) as [e |] eqn:Hget.
  - apply mapGet_In in Hget. apply Hm in Hget.
    destruct Hget as (Hc & Hctx & Hnd & Hsrc & Hof & _). cbn [fst snd] in *.
    pose proof (setAdd_length (Mapper.sources e) url).
    rewrite length_app. simpl.
    repeat split; try lia; try assumption.
    + now apply setAdd_NoDup.
    + intros u Hu. apply setAdd_In in Hu. destruct Hu as [Hu | ->]; auto.
  - simpl. repeat split; try lia; try assumption.
    + repeat constructor. intros [].
    + intros u [<- | []]. exact Hurl.
Qed.

Lemma nameStep_keys (text url name : string) (m : list (string * Mapper.Mention)) :
  NoDup (map fst m) -> NoDup (map fst (Mapper.nameStep text url m name)).
Proof.
  intros Hm. unfold Mapper.nameStep.
  destruct (_ || _); [exact Hm |].
  destruct (existsb _ Mapper.excludePatterns); [exact Hm |].
  destruct (indexOf _ _); [| exact Hm].
  destruct (existsb _ Mapper.employeeContexts); [| exact Hm].
  rewrite mapSet_keys. now apply setAdd_NoDup.
Qed.

Lemma mentionedNames_ok (articles : list Mapper.Article)
  (m : list (string * Mapper.Mention)) :
  (forall a, In a articles -> ofArticle (Mapper.article_url a)) ->
  Forall (Mapper.mentionOk ofArticle) m /\ NoDup (map fst m) ->
  Forall (Mapper.mentionOk ofArticle) (fold_left Mapper.articleStep articles m)
  /\ NoDup (map fst (fold_left Mapper.articleStep articles m)).
Proof.
  revert m. induction articles as [| a articles IH]; intros m Hurls Hm; simpl; [exact Hm |].
  apply IH; [intros b Hb; apply Hurls; now right |].
  unfold Mapper.articleStep.
  generalize (Mapper.matchAll 0 (Mapper.articleText a)). intros names.
  revert m Hm. induction names as [| n names IHn]; intros m Hm; simpl; [exact Hm |].
  apply IHn. destruct Hm as [Hok Hnd]. split.
  - apply nameStep_ok; [apply Hurls; now left | exact Hok].
  - now apply nameStep_keys.
Qed.

End PressInvariant.

(** X15: [fetchPressMentions] pushes at most one candidate per name, for
    names seen with employee context at least twice; a pushed candidate has
    a name of six characters or more that contains no excluded pattern, and
    one to three distinct sources, each the URL of one of the articles. The
    first context snippet, which the note quotes, always exists. *)
Theorem pressPeople_candidates (allArticles : list Mapper.Article) :
  NoDup (map name (Mapper.pressPeople allArticles))
  /\ forall p, In p (Mapper.pressPeople allArticles) ->
       Pipeline.pushed p
       /\ (exists data context0 more,
             In (name p, data) (Mapper.mentionedNamesOf allArticles)
             /\ (2 <= Mapper.mentions data)%nat
             /\ Mapper.contexts data = context0 :: more
             /\ p = Mapper.fetchPressMentions (name p) (decimal (Mapper.mentions data))
                      (Mapper.sources data) context0)
       /\ NoDup (otherSources p)
       /\ (1 <= List.length (otherSources p) <= 3)%nat
       /\ (forall u, In u (otherSources p) ->
             exists a, In a allArticles /\ Mapper.article_url a = u)
       /\ (6 <= String.length (name p))%nat
       /\ existsb (fun pattern => includes (toLowerCase (name p)) pattern)
            Mapper.excludePatterns = false.
Proof.
  set (ofArticle := fun u => exists a, In a allArticles /\ Mapper.article_url a = u).
  destruct (mentionedNames_ok ofArticle allArticles [])
    as [Hok Hnd]; [intros a Ha; now exists a | split; constructor |].
  fold (Mapper.mentionedNamesOf allArticles) in Hok, Hnd.
  unfold Mapper.pressPeople. split.
  - revert Hnd. generalize (Mapper.mentionedNamesOf allArticles). intros m.
    induction m as [| [n e] m IH]; intros Hnd; cbn [flat_map map fst snd];
      [constructor |].
    apply NoDup_cons_iff in Hnd. destruct Hnd as [Hfresh Hnd]. specialize (IH Hnd).
    destruct (2 <=? Mapper.mentions e)%nat; [| exact IH].
    cbn [app map]. constructor; [| exact IH].
    intros Hin. apply Hfresh. apply in_map_iff in Hin.
    destruct Hin as (q & Hname & Hq). apply in_flat_map in Hq.
    destruct Hq as ([n' e'] & Hentry & Hq'). cbn [fst snd] in Hq'.
    destruct (2 <=? Mapper.mentions e')%nat; [| destruct Hq'].
    destruct Hq' as [<- | []]. cbn [name Mapper.fetchPressMentions] in Hname. subst n'.
    now apply (in_map fst) in Hentry.
  - intros p Hp. apply in_flat_map in Hp. destruct Hp as ([n e] & Hentry & Hp).
    rewrite Forall_forall in Hok. specialize (Hok _ Hentry).
    destruct Hok as (Hc & Hctx & Hnds & Hsrc & Hof & Hlen & Hexcl).
    cbn [fst snd] in *.
    destruct (2 <=? Mapper.mentions e)%nat eqn:Htwo; [| destruct Hp].
    destruct Hp as [<- | []]. apply Nat.leb_le in Htwo.
    destruct (Mapper.contexts e) as [| c0 more] eqn:Hcontexts; [simpl in Hctx; lia |].
    cbn [name otherSources Mapper.fetchPressMentions hd].
    split; [apply Pipeline.pushed_press |].
    split; [exists e, c0, more; repeat split; assumption |].
    assert (Hfirst : forall (l : list string),
              NoDup l -> NoDup (firstn 3 l)
              /\ (forall u, In u (firstn 3 l) -> In u l)).
    { intros l Hl. split.
      - rewrite <- (firstn_skipn 3 l) in Hl. now apply NoDup_app_remove_r in Hl.
      - intros u Hu. rewrite <- (firstn_skipn 3 l). apply in_or_app. now left. }
    destruct (Hfirst _ Hnds) as [Hnd3 Hin3].
    split; [exact Hnd3 |].
    split.
    { rewrite length_firstn. lia. }
    split; [intros u Hu; apply Hof, Hin3, Hu |].
    split; assumption.
Qed.

(** ** fetchPressMentions: the shape of a match *)

Lemma spaceFree_app (a b : string) : spaceFree a -> spaceFree b -> spaceFree (a ++ b).
Proof.
  unfold spaceFree. induction a as [| c a IH]; simpl; [tauto |].
  intros Ha Hb [E | Hin]; [tauto |]. revert Hin. apply IH; tauto.
Qed.

Lemma lowerRun_spaceFree (s : string) : spaceFree (fst (Mapper.lowerRun s)).
Proof.
  unfold spaceFree. induction s as [| c s IH]; simpl; [tauto |].
  destruct (Mapper.isLower c) eqn:E; [| simpl; tauto].
  destruct (Mapper.lowerRun s) as [w r]. simpl in *.
  intros [-> | Hin]; [discriminate E | tauto].
Qed.

Lemma capitalized_word (s w r : string) :
  Mapper.capitalized s = Some (w, r) -> spaceFree w /\ (2 <= String.length w)%nat.
Proof.
  unfold Mapper.capitalized. destruct s as [| c s]; [discriminate |].
  destruct (Mapper.isUpper c) eqn:E; [| discriminate].
  pose proof (lowerRun_spaceFree s) as Hrun.
  destruct (Mapper.lowerRun s) as [[| d run] rest]; [discriminate |].
  intros [= <- <-]. simpl in Hrun. split; [| simpl; lia].
  unfold spaceFree in *. simpl in *. intros [-> | Hin]; [discriminate E | tauto].
Qed.

(** A match is two capitalized words joined by one space, possibly followed
    by a white-space character and a third capitalized word. *)
Lemma matchName_shape (s m : string) :
  Mapper.matchName s = Some m ->
  exists w1 w2 t,
    m = w1 ++ String " " (w2 ++ t)
    /\ spaceFree w1 /\ spaceFree w2
    /\ (2 <= String.length w1)%nat /\ (2 <= String.length w2)%nat
    /\ (t = EmptyString \/ exists ws w3, t = String ws w3 /\ spaceFree w3).
Proof.
  unfold Mapper.matchName.
  destruct (Mapper.capitalized s) as [[w1 [| sp r1]] |] eqn:H1; try discriminate.
  destruct (Ascii.eqb sp " ") eqn:Hsp; [| discriminate].
  destruct (Mapper.capitalized r1) as [[w2 r2] |] eqn:H2; [| discriminate].
  intros [= <-]. apply capitalized_word in H1, H2.
  destruct H1 as [Hs1 Hl1], H2 as [Hs2 Hl2].
  eexists w1, w2, _. split; [reflexivity |].
  repeat (split; [assumption |]).
  destruct r2 as [| ws r3]; [now left |].
  destruct (isWhiteSpace ws); [| now left].
  destruct (Mapper.capitalized r3) as [[w3 r4] |] eqn:H3; [| now left].
  right. exists ws, w3. split; [reflexivity |].
  now apply capitalized_word in H3.
Qed.

Lemma matchAll_matches (s m : string) (skip : nat) :
  In m (Mapper.matchAll skip s) -> exists s', Mapper.matchName s' = Some m.
Proof.
  revert skip. induction s as [| c s IH]; intros skip; cbn [Mapper.matchAll]; [intros [] |].
  destruct skip as [| k]; [| apply IH].
  destruct (Mapper.matchName (String c s)) as [m' |] eqn:E; [| apply IH].
  intros [<- | Hin]; [now exists (String c s) | now apply IH in Hin].
Qed.

(** X16: every match of [namePattern] has at least five characters and
    splits on single spaces into two or three parts; so the test for more
    than three parts never rejects a name, and the length test rejects only
    names of exactly five characters. *)
Theorem namePattern_match_shape (text name : string) :
  In name (Mapper.matchAll 0 text) ->
  (5 <= String.length name)%nat
  /\ (2 <= List.length (splitOn " " name) <= 3)%nat
  /\ (3 <? List.length (splitOn " " name))%nat = false
  /\ ((String.length name <? 6)%nat = true <-> String.length name = 5%nat).
Proof.
  intros Hin. apply matchAll_matches in Hin. destruct Hin as [s Hs].
  apply matchName_shape in Hs.
  destruct Hs as (w1 & w2 & t & -> & Hs1 & Hs2 & Hl1 & Hl2 & Ht).
  assert (Hlen : (5 <= String.length (w1 ++ String " " (w2 ++ t)))%nat).
  { rewrite append_length. cbn [String.length]. rewrite append_length. lia. }
  assert (Hparts : (2 <= List.length (splitOn " " (w1 ++ String " " (w2 ++ t))) <= 3)%nat).
  { rewrite (splitOn_first _ _ _ Hs1).
    destruct Ht as [-> | (ws & w3 & -> & Hs3)].
    - assert (E : w2 ++ "" = w2) by (clear; induction w2; simpl; congruence).
      rewrite E, (splitOn_word _ _ Hs2). simpl. lia.
    - destruct (Ascii.eqb ws " ") eqn:Hws.
      + apply Ascii.eqb_eq in Hws. subst ws.
        rewrite (splitOn_first _ _ _ Hs2), (splitOn_word _ _ Hs3). simpl. lia.
      + apply Ascii.eqb_neq in Hws.
        rewrite splitOn_word; [simpl; lia |].
        apply spaceFree_app; [exact Hs2 |].
        unfold spaceFree in *. simpl. intros [E | Hin]; [congruence | tauto]. }
  split; [exact Hlen |]. split; [exact Hparts |].
  split; [apply Nat.ltb_ge; lia |].
  rewrite Nat.ltb_lt. lia.
Qed.

Lemma namePattern_match_shape_witness :
  (5 <= String.length "Mary Ann Smith")%nat
  /\ (2 <= List.length (splitOn " " "Mary Ann Smith") <= 3)%nat
  /\ (3 <? List.length (splitOn " " "Mary Ann Smith"))%nat = false
  /\ ((String.length "Mary Ann Smith" <? 6)%nat = true
      <-> String.length "Mary Ann Smith" = 5%nat).
Proof.
  apply (namePattern_match_shape "Elon Musk met Mary Ann Smith Jones" "Mary Ann Smith").
  simpl. tauto.
Defined.

(** ** What every connector guarantees *)

Lemma score_of_hits_flagged (h : nat) :
  h <> 0%nat -> 0.3 <= Qmin 1 (inject_Z (Z.of_nat h) / inject_Z (Z.of_nat 9) + 0.2).
Proof.
  intros Hh.
  assert (E : inject_Z (Z.of_nat h) / inject_Z (Z.of_nat 9) + 0.2
              == (Z.of_nat h # 9) + (2 # 10)).
  { unfold Qdiv, Qeq; simpl; lia. }
  apply Q.min_glb; [unfold Qle; simpl; lia |].
  rewrite E. unfold Qle; simpl; lia.
Qed.

Lemma computeResearchScore_flagged (t : string) :
  Mapper.isResearchLike t = true -> 0.3 <= Mapper.computeResearchScore t.
Proof.
  unfold Mapper.computeResearchScore, Mapper.isResearchLike.
  change (List.length Mapper.keywords) with 9%nat.
  rewrite existsb_filter_length, negb_true_iff, Nat.eqb_neq.
  apply score_of_hits_flagged.
Qed.

Lemma pushed_flaggedScore (p : PublicResearcher) : Pipeline.pushed p -> Pipeline.flaggedScore p.
Proof.
  unfold Pipeline.flaggedScore.
  destruct 1 as [url nameText titleText p Hsite | | | repoName login user
                | display_name works lg instName country openAlexId Hlg | | | | |];
    cbn [Types.isResearchLike researchScore Mapper.fetchGitHubOrgMembers
         Mapper.fetchGitHubContributors GithubReposScraper.fetchOrgContributors
         Mapper.fetchOpenAlexResearchers Mapper.fetchPressMentions
         Mapper.fetchHackerNewsDiscussions Mapper.fetchRedditDiscussions
         Mapper.scrapeTwitterMentions Mapper.fetchTwitterAPI];
    try discriminate;
    try apply computeResearchScore_flagged;
    try (intros _; unfold Qle; simpl; lia).
  - unfold Mapper.scrapeXAISite in Hsite.
    destruct (negb _) in Hsite; [discriminate |].
    injection Hsite as <-. discriminate.
  - intros ->. unfold Qle; simpl; lia.
  - intros _. apply Q.min_glb; [unfold Qle; simpl; lia |].
    assert (H : 0 <= lg / 2) by (apply Qle_shift_div_l; [reflexivity | lra]).
    lra.
Qed.

Lemma mergePerson_flaggedScore (e p : PublicResearcher) :
  Pipeline.flaggedScore e -> Pipeline.flaggedScore p -> Pipeline.flaggedScore (Mapper.mergePerson e p).
Proof.
  unfold Pipeline.flaggedScore. simpl. intros He Hp Hflag.
  apply Q.min_glb; [unfold Qle; simpl; lia |].
  pose proof (Q.le_max_l (researchScore e) (researchScore p)) as Hl.
  pose proof (Q.le_max_r (researchScore e) (researchScore p)) as Hr.
  apply orb_true_iff in Hflag. destruct Hflag as [H | H];
    [apply He in H | apply Hp in H]; lra.
Qed.

(** X17: in every reachable working set, a record marked research-like has
    a score of at least 0.3: each connector that sets the flag gives at
    least that score, and merging keeps it so. *)
Theorem reachable_flagged_score (people : list PublicResearcher) :
  Pipeline.reachable people ->
  Forall (fun p => Types.isResearchLike p = true -> 0.3 <= researchScore p) people.
Proof.
  intros Hreach. change (Forall Pipeline.flaggedScore people).
  induction Hreach as [| people p _ IH Hp | people _ IH].
  - constructor.
  - apply Forall_app. split; [exact IH |].
    constructor; [apply pushed_flaggedScore, Hp | constructor].
  - apply fold_dedupStep_Forall; [apply mergePerson_flaggedScore | constructor | exact IH].
Qed.

Lemma reachable_flagged_score_witness :
  Forall (fun p => Types.isResearchLike p = true -> 0.3 <= researchScore p)
    (Mapper.deduplicatePeople (([] ++ [Examples.alice]) ++ [Examples.aliceMoved])).
Proof.
  apply reachable_flagged_score.
  apply Pipeline.reachable_dedup, Pipeline.reachable_push.
  - apply Pipeline.reachable_push; [apply Pipeline.reachable_init |].
    apply Pipeline.pushed_contributor.
  - apply Pipeline.pushed_contributor.
Defined.

Lemma linkValue_orUndefined (l : string) : linkValue (orUndefined l) = l.
Proof.
  unfold linkValue, orUndefined, orElse.
  destruct (truthyStr l) eqn:E; [now rewrite E |].
  unfold truthyStr in E. rewrite negb_false_iff in E. now apply String.eqb_eq in E.
Qed.

Lemma includes_paloAlto_isBayArea (p : PublicResearcher) :
  includes (toLowerCase (linkValue (location p))) "palo alto" = true ->
  Mapper.isBayArea p = true.
Proof.
  unfold Mapper.isBayArea, linkValue. intros H.
  unfold Mapper.bayAreaKeywords. cbn [existsb]. now rewrite H.
Qed.

(** X18: a connector rates a candidate's location high only for a location
    text that the Bay Area filter of [exportResults] accepts; in particular
    no candidate without a location enters with the tier high. *)
Theorem pushed_high_is_bayArea (p : PublicResearcher) :
  Pipeline.pushed p ->
  locationConfidence p = high ->
  Mapper.isBayArea p = true /\ truthy (location p) = true.
Proof.
  intros Hpushed Hhigh.
  assert (Hbay : Mapper.isBayArea p = true).
  { destruct Hpushed as [url nameText titleText p Hsite | login user
                        | repo login commits user | repoName login user
                        | display_name works lg instName country openAlexId Hlg | | | | |];
      try discriminate Hhigh.
    - unfold Mapper.scrapeXAISite in Hsite.
      destruct (negb _) in Hsite; [discriminate |].
      injection Hsite as <-. discriminate Hhigh.
    - apply includes_paloAlto_isBayArea.
      unfold Mapper.fetchGitHubOrgMembers in *.
      cbn [locationConfidence location] in *.
      unfold Mapper.paloAltoConfidence, linkValue, orElse in *.
      destruct (user_location user) as [l |]; [| discriminate].
      destruct (truthyStr l); [| discriminate].
      destruct (includes (toLowerCase l) "palo alto"); [reflexivity | discriminate].
    - apply isBayArea_tier.
      unfold Mapper.fetchGitHubContributors in *.
      cbn [locationConfidence location] in *.
      rewrite linkValue_orUndefined, Hhigh. discriminate.
    - apply includes_paloAlto_isBayArea.
      unfold GithubReposScraper.fetchOrgContributors in *.
      cbn [locationConfidence location] in *.
      set (l := trim (orElse (user_location user) "")) in *.
      unfold Mapper.paloAltoConfidence, orUndefined, linkValue, orElse in *.
      destruct (truthyStr l) eqn:E; [| discriminate]. rewrite E.
      destruct (includes (toLowerCase l) "palo alto"); [reflexivity | discriminate].
    - unfold Mapper.fetchOpenAlexResearchers in Hhigh. cbn [locationConfidence] in Hhigh.
      destruct (truthy country); discriminate.
    - unfold Mapper.fetchTwitterAPI in Hhigh. cbn [locationConfidence] in Hhigh.
      destruct (truthy _); discriminate. }
  split; [exact Hbay |].
  destruct (truthy (location p)) eqn:E; [reflexivity |].
  exfalso. apply isBayArea_tier in Hbay. apply Hbay.
  rewrite truthy_linkValue, negb_false_iff in E. apply String.eqb_eq in E.
  now rewrite E.
Qed.

Lemma pushed_high_is_bayArea_witness :
  Mapper.isBayArea Examples.alice = true /\ truthy (location Examples.alice) = true.
Proof.
  apply (pushed_high_is_bayArea Examples.alice).
  - apply Pipeline.pushed_contributor.
  - reflexivity.
Defined.
